(** * card-liff: the ETL reconciliation run of [python_tools/etl.py]

    A shallow embedding of [main] (etl.py, lines 11-68): one invocation
    processes one card page.  The three collaborators ([DatabaseOps],
    [BankCrawler], [RewardsParser]) are imported by etl.py from the
    packages [db], [crawler] and [ai]; their behaviour during one run is
    an [Env], and the tables the database keeps are a [Store].

    Python exceptions are modelled by a state-and-exception monad in which
    the state written before a [raise] stays written, as in Python. *)

From Stdlib Require Import ZArith Lia.
From stdpp Require Import gmap strings list fin_maps.

#[local] Set Warnings "-register-all".
#[local] Open Scope string_scope.
#[local] Open Scope list_scope.
#[local] Open Scope Z_scope.

(** ** Python values *)

Module Py.

(** The values that travel through [main]: identifiers, strings, the
    dictionaries returned by the crawler and the parser, and the JSON-like
    payload inside them. *)
Inductive pyval : Type :=
  | VNone
  | VBool (b : bool)
  | VInt (z : Z)
  | VStr (s : string)
  | VList (l : list pyval)
  | VDict (d : gmap string pyval).

Abbreviation pydict := (gmap string pyval).

(** [Exception] and its subclasses are caught by [except Exception];
    [KeyboardInterrupt], [SystemExit] and [asyncio.CancelledError] derive
    from [BaseException] only and are not. *)
Record pyexn : Type := PyExn {
  exn_derives_Exception : bool;
  exn_class : string;
  exn_str : string
}.

(** [d[k]] on a missing key; [str(KeyError(k))] is the repr of the key. *)
Definition KeyError (k : string) : pyexn :=
  PyExn true "KeyError" ("'" ++ k ++ "'")%string.

(** [v == "literal"]: a value equals a string literal exactly when it is
    that string. *)
Definition py_eq_str (v : pyval) (s : string) : bool :=
  match v with
  | VStr s' => String.eqb s' s
  | _ => false
  end.

(** [k in d] for a dictionary [d]. *)
Definition py_in (k : string) (d : pydict) : bool :=
  match d !! k with
  | Some _ => true
  | None => false
  end.

(** [d.get(k)]: [None] when the key is missing. *)
Definition dict_get (d : pydict) (k : string) : pyval :=
  default VNone (d !! k).

(** Truth value of a dictionary: empty dictionaries are falsy. *)
Definition dict_truthy (d : pydict) : bool :=
  negb (Nat.eqb (size d) 0).

End Py.
Export Py.

(** ** The database tables *)

Module Db.

(** Modelled from the spec: the tables behind [DatabaseOps]
    (db/operations.py, imported by etl.py).  The rows follow section 3 of
    the specification (TrackedTarget, ContentVersion, CrawlOutcome) and
    the arguments etl.py passes to [save_card_version] and
    [log_crawl_result].  Timestamps are replaced by the position in the
    append-only tables. *)
Record Bank : Type := mkBank {
  bank_id : Z;
  bank_name : string;
  bank_code : string
}.

(** Modelled from the spec: a tracked target (section 3, TrackedTarget):
    identifier, owning bank, and the name and URL etl.py passes to
    [get_or_create_card]. *)
Record Card : Type := mkCard {
  card_id : Z;
  card_bank : Z;
  card_name : string;
  card_url : string
}.

(** Modelled from the spec: a ContentVersion (section 3), with the five
    arguments of [save_card_version] (lines 57-63). *)
Record CardVersion : Type := mkCardVersion {
  cv_card : Z;
  cv_version_name : string;
  cv_hash : pyval;
  cv_rewards : gmap string pyval;
  cv_raw_content : pyval
}.

(** Modelled from the spec: a CrawlOutcome (section 3), with the
    arguments of [log_crawl_result]; [cl_error] is [None] when the call
    passes no detail. *)
Record CrawlLog : Type := mkCrawlLog {
  cl_card : Z;
  cl_status : string;
  cl_error : pyval
}.

(** Modelled from the spec: the four tables of the store (section 1:
    banks, cards, versions, crawl logs), oldest row first. *)
Record Store : Type := mkStore {
  banks : list Bank;
  cards : list Card;
  card_versions : list CardVersion;
  crawl_logs : list CrawlLog
}.

Definition empty_store : Store := mkStore [] [] [] [].

Definition bank_matches (name code : string) (b : Bank) : bool :=
  String.eqb (bank_name b) name && String.eqb (bank_code b) code.

Definition card_matches (bank : Z) (name url : string) (c : Card) : bool :=
  Z.eqb (card_bank c) bank && String.eqb (card_name c) name
  && String.eqb (card_url c) url.

(** Modelled from the spec: [get_or_create_bank(name, code)] returns the
    identifier of the bank with these attributes, creating the row under a
    fresh identifier when there is none (targets are created once, during
    seeding, and never changed afterwards). *)
Definition find_or_add_bank (name code : string) (bs : list Bank)
  : Z * list Bank :=
  match List.find (bank_matches name code) bs with
  | Some b => (bank_id b, bs)
  | None =>
      let i := Z.of_nat (length bs) + 1 in
      (i, bs ++ [mkBank i name code])
  end.

(** Modelled from the spec: [get_or_create_bank] on the store; it touches
    the table of banks only. *)
Definition get_or_create_bank_row (name code : string) (st : Store)
  : Z * Store :=
  let r := find_or_add_bank name code (banks st) in
  (fst r, mkStore (snd r) (cards st) (card_versions st) (crawl_logs st)).

(** Modelled from the spec: [get_or_create_card(bank_id, name, url)], as
    for banks. *)
Definition find_or_add_card (bank : Z) (name url : string) (cs : list Card)
  : Z * list Card :=
  match List.find (card_matches bank name url) cs with
  | Some c => (card_id c, cs)
  | None =>
      let i := Z.of_nat (length cs) + 1 in
      (i, cs ++ [mkCard i bank name url])
  end.

(** Modelled from the spec: [get_or_create_card] on the store; it touches
    the table of cards only. *)
Definition get_or_create_card_row (bank : Z) (name url : string) (st : Store)
  : Z * Store :=
  let r := find_or_add_card bank name url (cards st) in
  (fst r, mkStore (banks st) (snd r) (card_versions st) (crawl_logs st)).

Definition version_of (card : Z) (v : CardVersion) : bool :=
  Z.eqb (cv_card v) card.

Definition log_of (card : Z) (l : CrawlLog) : bool :=
  Z.eqb (cl_card l) card.

(** Modelled from the spec: the latest version of a card is the one
    created last (section 3: the one with the greatest creation order). *)
Definition latest_version (card : Z) (st : Store) : option CardVersion :=
  last (List.filter (version_of card) (card_versions st)).

(** Modelled from the spec: [get_latest_card_version(card_id)] returns the
    latest version row of the card as a mapping, or [None] when the card
    has no version.  etl.py reads the column [source_content_hash] only;
    the other columns are left out of the mapping. *)
Definition get_latest_card_version_row (card : Z) (st : Store)
  : option (gmap string pyval) :=
  match latest_version card st with
  | Some v => Some {[ "source_content_hash" := cv_hash v ]}
  | None => None
  end.

(** Modelled from the spec: [save_card_version] appends one immutable
    version row (VersionStore.createVersion).  Whether the call raises
    instead (section 6: a conflicting version exists) is decided by the
    [fault] of the run, see [db_call]. *)
Definition save_card_version_row (card : Z) (version_name : string)
    (hash_val : pyval) (rewards : gmap string pyval) (raw_content : pyval)
    (st : Store) : Store :=
  mkStore (banks st) (cards st)
          (card_versions st
             ++ [mkCardVersion card version_name hash_val rewards raw_content])
          (crawl_logs st).

(** Modelled from the spec: [log_crawl_result(card_id, status, error=None)]
    appends one audit row (VersionStore.appendOutcome). *)
Definition log_crawl_result_row (card : Z) (status : string) (error : pyval)
    (st : Store) : Store :=
  mkStore (banks st) (cards st) (card_versions st)
          (crawl_logs st ++ [mkCrawlLog card status error]).

End Db.
Export Db.

(** ** Runs: the world, the collaborators and the monad *)

Module Run.

(** Every call [main] makes to a collaborator, with its arguments. *)
Inductive Call : Type :=
  | Call_DatabaseOps
  | Call_BankCrawler (headless : bool)
  | Call_RewardsParser
  | Call_get_or_create_bank (name code : string)
  | Call_get_or_create_card (bank : Z) (name url : string)
  | Call_get_latest_card_version (card : Z)
  | Call_process_card_url (card : Z) (url : string) (last_hash : pyval)
  | Call_parse_markdown_to_json (content : pyval)
  | Call_save_card_version (card : Z) (version_name : string)
      (hash_val : pyval) (rewards : gmap string pyval) (raw_content : pyval)
  | Call_log_crawl_result (card : Z) (status : string) (error : pyval).

Inductive Level : Type := INFO | ERROR.

(** A line written through [logger]: level, message template and the
    values interpolated into it. *)
Record LogLine : Type := mkLogLine {
  ll_level : Level;
  ll_message : string;
  ll_args : list pyval
}.

(** What a run can change: the database, the sequence of collaborator
    calls made so far, and the process log. *)
Record World : Type := mkWorld {
  db : Store;
  calls : list Call;
  console : list LogLine
}.

Definition empty_world : World := mkWorld empty_store [] [].

Inductive res (A : Type) : Type :=
  | Ok (a : A)
  | Raise (ex : pyexn).
Arguments Ok {A} a.
Arguments Raise {A} ex.

(** The behaviour of the collaborators during one run.  [fault c st] is
    the exception with which a constructor or a database call [c] fails
    when the database is [st] ([None]: the call succeeds);
    [on_process_card_url] and [on_parse_markdown_to_json] give what the
    crawler and the parser answer: a mapping (their contract, sections 4.1
    and 6), or an exception. *)
Record Env : Type := mkEnv {
  fault : Call -> Store -> option pyexn;
  on_process_card_url : Z -> string -> pyval -> res (gmap string pyval);
  on_parse_markdown_to_json : pyval -> res (gmap string pyval)
}.

(** A computation returns a value or raises, and leaves a world behind in
    both cases. *)
Definition M (A : Type) : Type := World -> res A * World.

Definition ret {A} (a : A) : M A := fun w => (Ok a, w).

Definition raise {A} (ex : pyexn) : M A := fun w => (Raise ex, w).

Definition bind {A B} (m : M A) (k : A -> M B) : M B :=
  fun w =>
    match m w with
    | (Ok a, w') => k a w'
    | (Raise ex, w') => (Raise ex, w')
    end.

Declare Scope py_scope.
Delimit Scope py_scope with py.
Notation "x <- m ;; k" := (bind m (fun x => k))
  (at level 100, m at next level, right associativity) : py_scope.
Notation "m ;; k" := (bind m (fun _ => k))
  (at level 100, right associativity) : py_scope.
#[local] Open Scope py_scope.

(** [try: body except Exception as e: handler(e)]: exceptions that do not
    derive from [Exception] pass through. *)
Definition try_except_Exception {A} (body : M A) (handler : pyexn -> M A)
  : M A :=
  fun w =>
    match body w with
    | (Ok a, w') => (Ok a, w')
    | (Raise ex, w') =>
        if exn_derives_Exception ex then handler ex w' else (Raise ex, w')
    end.

Definition record_call (c : Call) (w : World) : World :=
  mkWorld (db w) (calls w ++ [c]) (console w).

(** Modelled from the spec: how a constructor or a method of
    [DatabaseOps] (db/operations.py) takes effect.  The call is recorded;
    then it either raises and leaves the tables as they were, or takes
    effect as a whole (section 4.1: a version is created atomically, a
    failed commit creates no partial version). *)
Definition db_call {A} (e : Env) (c : Call) (op : Store -> A * Store)
  : M A :=
  fun w =>
    let w1 := record_call c w in
    match fault e c (db w) with
    | Some ex => (Raise ex, w1)
    | None =>
        let r := op (db w) in
        (Ok (fst r), mkWorld (snd r) (calls w1) (console w1))
    end.

(** A call to the crawler or to the parser: recorded, no effect on the
    tables. *)
Definition ext_call {A} (c : Call) (r : res A) : M A :=
  fun w => (r, record_call c w).

Definition logger (lvl : Level) (msg : string) (args : list pyval)
  : M unit :=
  fun w => (Ok tt, mkWorld (db w) (calls w)
                           (console w ++ [mkLogLine lvl msg args])).

(** [d[k]]: raises [KeyError] when the key is missing. *)
Definition subscript (d : pydict) (k : string) : M pyval :=
  match d !! k with
  | Some v => ret v
  | None => raise (KeyError k)
  end.

End Run.
Export Run.
#[local] Open Scope py_scope.

(** ** etl.py *)

Module Etl.

(** *** The collaborators' methods, as [main] calls them *)

Definition DatabaseOps (e : Env) : M unit :=
  db_call e Call_DatabaseOps (fun st => (tt, st)).

Definition BankCrawler (e : Env) (headless : bool) : M unit :=
  db_call e (Call_BankCrawler headless) (fun st => (tt, st)).

Definition RewardsParser (e : Env) : M unit :=
  db_call e Call_RewardsParser (fun st => (tt, st)).

Definition get_or_create_bank (e : Env) (name code : string) : M Z :=
  db_call e (Call_get_or_create_bank name code)
          (get_or_create_bank_row name code).

Definition get_or_create_card (e : Env) (bank : Z) (name url : string)
  : M Z :=
  db_call e (Call_get_or_create_card bank name url)
          (get_or_create_card_row bank name url).

Definition get_latest_card_version (e : Env) (card : Z)
  : M (option pydict) :=
  db_call e (Call_get_latest_card_version card)
          (fun st => (get_latest_card_version_row card st, st)).

Definition save_card_version (e : Env) (card : Z) (version_name : string)
    (hash_val : pyval) (rewards : pydict) (raw_content : pyval) : M unit :=
  db_call e (Call_save_card_version card version_name hash_val rewards
                                    raw_content)
          (fun st => (tt, save_card_version_row card version_name hash_val
                                                rewards raw_content st)).

Definition log_crawl_result (e : Env) (card : Z) (status : string)
    (error : pyval) : M unit :=
  db_call e (Call_log_crawl_result card status error)
          (fun st => (tt, log_crawl_result_row card status error st)).

Definition process_card_url (e : Env) (card : Z) (url : string)
    (last_hash : pyval) : M pydict :=
  ext_call (Call_process_card_url card url last_hash)
           (on_process_card_url e card url last_hash).

Definition parse_markdown_to_json (e : Env) (content : pyval) : M pydict :=
  ext_call (Call_parse_markdown_to_json content)
           (on_parse_markdown_to_json e content).

(** *** [main] *)

Definition bank_name_0 : string := "台北富邦銀行".
Definition bank_code_0 : string := "012".
Definition card_name_0 : string := "富邦 J 卡".
Definition target_url : string :=
  "https://www.fubon.com/banking/personal/credit_card/all_card/j_card/j_card_rates.htm".

(** Lines 27-28: [last_version['source_content_hash'] if last_version
    else None]. *)
Definition last_hash_of (last_version : option pydict) : M pyval :=
  match last_version with
  | Some row =>
      if dict_truthy row then subscript row "source_content_hash"
      else ret VNone
  | None => ret VNone
  end.

(** Lines 19-65, the body of the [try].  Each [return] of the source ends
    its branch here. *)
Definition main_try (e : Env) : M unit :=
  bank <- get_or_create_bank e bank_name_0 bank_code_0 ;;
  card <- get_or_create_card e bank card_name_0 target_url ;;
  logger INFO "Processing Card: 富邦 J 卡 (ID: {card_id})" [VInt card] ;;
  last_version <- get_latest_card_version e card ;;
  last_hash <- last_hash_of last_version ;;
  crawl_result <- process_card_url e card target_url last_hash ;;
  status <- subscript crawl_result "status" ;;
  if py_eq_str status "NO_CHANGE" then
    logger INFO "Content not changed. Skipping AI parse." [] ;;
    log_crawl_result e card "NO_CHANGE" VNone
  else
    status <- subscript crawl_result "status" ;;
    if py_eq_str status "FAILED" then
      logger ERROR "Crawl failed: {crawl_result.get('error')}"
             [dict_get crawl_result "error"] ;;
      log_crawl_result e card "FAILED" (dict_get crawl_result "error")
    else
      logger INFO "Content changed. Calling AI Parser..." [] ;;
      markdown_content <- subscript crawl_result "content" ;;
      current_hash <- subscript crawl_result "hash" ;;
      rewards_json <- parse_markdown_to_json e markdown_content ;;
      if py_in "error" rewards_json then
        err <- subscript rewards_json "error" ;;
        logger ERROR "AI Parse failed: {rewards_json['error']}" [err] ;;
        err <- subscript rewards_json "error" ;;
        log_crawl_result e card "AI_FAILED" err
      else
        logger INFO "AI Parse success. Saving to DB..." [] ;;
        save_card_version e card "2026-Q1" current_hash rewards_json
                          markdown_content ;;
        log_crawl_result e card "SUCCESS" VNone ;;
        logger INFO "ETL process completed successfully." [].

(** Lines 67-68: the handler of [except Exception as e]. *)
Definition main_except (ex : pyexn) : M unit :=
  logger ERROR "ETL fatal error: {str(e)}" [VStr (exn_str ex)].

(** Lines 12-14: the three constructors, outside the [try]. *)
Definition main_setup (e : Env) : M unit :=
  DatabaseOps e ;;
  BankCrawler e true ;;
  RewardsParser e.

(** Lines 11-68. *)
Definition main (e : Env) : M unit :=
  main_setup e ;;
  try_except_Exception (main_try e) main_except.

End Etl.
Export Etl.

(** ** Observing runs *)

Module Obs.

(** The world a run leaves behind, and what [main] hands to its caller. *)
Definition run (e : Env) (w : World) : World := snd (main e w).
Definition result (e : Env) (w : World) : res unit := fst (main e w).

(** Successive runs, one environment per run. *)
Definition runs (es : list Env) (w : World) : World :=
  fold_left (fun w e => run e w) es w.

(** The rows and calls a run adds. *)
Definition new_logs (e : Env) (w : World) : list CrawlLog :=
  drop (length (crawl_logs (db w))) (crawl_logs (db (run e w))).

Definition new_versions (e : Env) (w : World) : list CardVersion :=
  drop (length (card_versions (db w))) (card_versions (db (run e w))).

Definition new_calls (e : Env) (w : World) : list Call :=
  drop (length (calls w)) (calls (run e w)).

(** The exception raised during a run, if any: by a constructor, or
    inside the [try] (where the handler may then swallow it). *)
Definition raised (e : Env) (w : World) : option pyexn :=
  match main_setup e w with
  | (Raise ex, _) => Some ex
  | (Ok _, w1) =>
      match main_try e w1 with
      | (Raise ex, _) => Some ex
      | (Ok _, _) => None
      end
  end.

(** The same as a result: [Ok] when no exception was raised. *)
Definition completion (e : Env) (w : World) : res unit :=
  match raised e w with
  | Some ex => Raise ex
  | None => Ok tt
  end.

(** The number of runs, among successive ones, during which no exception
    was raised. *)
Fixpoint clean_runs (es : list Env) (w : World) : nat :=
  match es with
  | [] => 0
  | e :: es' =>
      (match raised e w with Some _ => 0 | None => 1 end
       + clean_runs es' (run e w))%nat
  end.

(** No constructor and no database call fails. *)
Definition no_fault (e : Env) : Prop :=
  forall c st, fault e c st = None.

Definition is_write (c : Call) : bool :=
  match c with
  | Call_save_card_version _ _ _ _ _ | Call_log_crawl_result _ _ _ => true
  | _ => false
  end.

(** The constructors and the database reads (lines 12-27) do not fail. *)
Definition reads_succeed (e : Env) : Prop :=
  forall c st, is_write c = false -> fault e c st = None.

(** Writing the SUCCESS row never fails. *)
Definition success_log_reliable (e : Env) : Prop :=
  forall card st,
    fault e (Call_log_crawl_result card "SUCCESS" VNone) st = None.

(** The identifier under which the run knows its card, and the database
    once bank and card are in place (lines 19-20), when the database calls
    succeed. *)
Definition seed (st : Store) : Z * Store :=
  let r := get_or_create_bank_row bank_name_0 bank_code_0 st in
  get_or_create_card_row (fst r) card_name_0 target_url (snd r).

Definition target_card (st : Store) : Z := fst (seed st).
Definition seeded (st : Store) : Store := snd (seed st).

(** The fingerprint handed to the crawler (lines 27-28). *)
Definition last_known_hash (st : Store) : pyval :=
  match latest_version (target_card st) (seeded st) with
  | Some v => cv_hash v
  | None => VNone
  end.

(** What the crawler answers in a run started on [st]. *)
Definition fetched (e : Env) (st : Store) : res pydict :=
  on_process_card_url e (target_card st) target_url (last_known_hash st).

(** The crawler reports a change, with content [c] and fingerprint [h]. *)
Definition is_changed (d : pydict) (c h : pyval) : Prop :=
  d !! "status" = Some (VStr "CHANGED")
  /\ d !! "content" = Some c /\ d !! "hash" = Some h.

Definition is_parse_call (c : Call) : bool :=
  match c with
  | Call_parse_markdown_to_json _ => true
  | _ => false
  end.

Definition is_success (l : CrawlLog) : bool :=
  String.eqb (cl_status l) "SUCCESS".

Definition has_success (ls : list CrawlLog) : bool := existsb is_success ls.

Definition outcome_kinds : list string :=
  ["NO_CHANGE"; "FAILED"; "AI_FAILED"; "SUCCESS"].

(** The versions of card [T], and its runs recorded as SUCCESS. *)
Definition count_versions (T : Z) (st : Store) : nat :=
  length (List.filter (version_of T) (card_versions st)).

Definition success_of (T : Z) (l : CrawlLog) : bool :=
  log_of T l && is_success l.

Definition count_successes (T : Z) (st : Store) : nat :=
  length (List.filter (success_of T) (crawl_logs st)).

(** The calls of the constructors, and those of the [try] block up to and
    including the crawler's. *)
Definition setup_calls : list Call :=
  [ Call_DatabaseOps; Call_BankCrawler true; Call_RewardsParser ].

Definition fetch_calls (st : Store) : list Call :=
  [ Call_get_or_create_bank bank_name_0 bank_code_0;
    Call_get_or_create_card
      (fst (get_or_create_bank_row bank_name_0 bank_code_0 st))
      card_name_0 target_url;
    Call_get_latest_card_version (target_card st);
    Call_process_card_url (target_card st) target_url (last_known_hash st) ].

(** [st] with the version rows [vs] and the audit rows [ls] appended. *)
Definition add_rows (st : Store) (vs : list CardVersion)
    (ls : list CrawlLog) : Store :=
  mkStore (banks st) (cards st) (card_versions st ++ vs)
          (crawl_logs st ++ ls).

(** Nothing was written to the two append-only tables. *)
Definition untouched (st st' : Store) : Prop :=
  card_versions st' = card_versions st /\ crawl_logs st' = crawl_logs st.

End Obs.
Export Obs.

(** ** Lines 33-65 and their effect on the tables *)

Module Effects.

(** Lines 33-65 of [main]: what the run does with the crawler's answer.
    [main_try] is its first seven steps followed by [classify]. *)
Definition classify (e : Env) (card : Z) (crawl_result : pydict) : M unit :=
  status <- subscript crawl_result "status" ;;
  if py_eq_str status "NO_CHANGE" then
    logger INFO "Content not changed. Skipping AI parse." [] ;;
    log_crawl_result e card "NO_CHANGE" VNone
  else
    status <- subscript crawl_result "status" ;;
    if py_eq_str status "FAILED" then
      logger ERROR "Crawl failed: {crawl_result.get('error')}"
             [dict_get crawl_result "error"] ;;
      log_crawl_result e card "FAILED" (dict_get crawl_result "error")
    else
      logger INFO "Content changed. Calling AI Parser..." [] ;;
      markdown_content <- subscript crawl_result "content" ;;
      current_hash <- subscript crawl_result "hash" ;;
      rewards_json <- parse_markdown_to_json e markdown_content ;;
      if py_in "error" rewards_json then
        err <- subscript rewards_json "error" ;;
        logger ERROR "AI Parse failed: {rewards_json['error']}" [err] ;;
        err <- subscript rewards_json "error" ;;
        log_crawl_result e card "AI_FAILED" err
      else
        logger INFO "AI Parse success. Saving to DB..." [] ;;
        save_card_version e card "2026-Q1" current_hash rewards_json
                          markdown_content ;;
        log_crawl_result e card "SUCCESS" VNone ;;
        logger INFO "ETL process completed successfully." [].

(** The ways in which lines 33-65 can end for the crawler's answer [d],
    with the rows written: an exception before any write; one audit row
    and no version (three kinds); a version whose audit row could not be
    written; a version and its SUCCESS row. *)
Inductive try_effect (e : Env) (card : Z) (d : pydict)
  : res unit -> list CardVersion -> list CrawlLog -> Prop :=
  | effect_raise ex :
      try_effect e card d (Raise ex) [] []
  | effect_no_change status :
      d !! "status" = Some status ->
      py_eq_str status "NO_CHANGE" = true ->
      try_effect e card d (Ok tt) [] [mkCrawlLog card "NO_CHANGE" VNone]
  | effect_failed status :
      d !! "status" = Some status ->
      py_eq_str status "FAILED" = true ->
      try_effect e card d (Ok tt) []
                 [mkCrawlLog card "FAILED" (dict_get d "error")]
  | effect_ai_failed c m err :
      d !! "content" = Some c ->
      on_parse_markdown_to_json e c = Ok m ->
      m !! "error" = Some err ->
      try_effect e card d (Ok tt) [] [mkCrawlLog card "AI_FAILED" err]
  | effect_saved c h m ex st :
      d !! "content" = Some c -> d !! "hash" = Some h ->
      on_parse_markdown_to_json e c = Ok m ->
      m !! "error" = None ->
      fault e (Call_log_crawl_result card "SUCCESS" VNone) st = Some ex ->
      try_effect e card d (Raise ex)
                 [mkCardVersion card "2026-Q1" h m c] []
  | effect_committed c h m :
      d !! "content" = Some c -> d !! "hash" = Some h ->
      on_parse_markdown_to_json e c = Ok m ->
      m !! "error" = None ->
      try_effect e card d (Ok tt)
                 [mkCardVersion card "2026-Q1" h m c]
                 [mkCrawlLog card "SUCCESS" VNone].

(** How a [try] block that started on [st] and ended with [r] has left the
    database [st']: either it raised before the crawler answered, or the
    crawler answered [d] and lines 33-65 ran on the seeded database. *)
Definition try_outcome (e : Env) (st : Store) (r : res unit) (st' : Store)
  : Prop :=
  (exists ex, r = Raise ex /\ untouched st st')
  \/ (exists d vs ls,
        fetched e st = Ok d
        /\ st' = add_rows (seeded st) vs ls
        /\ try_effect e (target_card st) d r vs ls).

End Effects.
Export Effects.

(** ** A crawler that compares fingerprints *)

Module Crawler.

Definition unchanged_answer : pydict := {[ "status" := VStr "NO_CHANGE" ]}.

Definition changed_answer (content hash : string) : pydict :=
  <[ "status" := VStr "CHANGED" ]>
    (<[ "content" := VStr content ]> {[ "hash" := VStr hash ]}).

(** Modelled from the spec: [BankCrawler.process_card_url]
    (crawler/crawler.py; ContentFetcher.fetch in section 6) when the page
    is retrieved.  It fingerprints the page and compares the fingerprint
    with the last known one, by equality. *)
Definition comparing_fetch (fingerprint : string -> string) (page : string)
  : Z -> string -> pyval -> res pydict :=
  fun _ _ last_hash =>
    if py_eq_str last_hash (fingerprint page) then Ok unchanged_answer
    else Ok (changed_answer page (fingerprint page)).

(** The crawler of [e] is such a crawler, looking at [page]. *)
Definition compares (e : Env) (fingerprint : string -> string)
    (page : string) : Prop :=
  forall card url h,
    on_process_card_url e card url h
    = comparing_fetch fingerprint page card url h.

End Crawler.
Export Crawler.

(** ** Sample collaborators *)

Module Sample.

Definition quiet : Call -> Store -> option pyexn := fun _ _ => None.

Definition fingerprint (s : string) : string := ("fp:" ++ s)%string.

Definition page : string := "5% cashback on dining".
Definition page' : string := "3% cashback on dining".

Definition payload : pydict := {[ "cashback" := VInt 5 ]}.

Definition failed_answer : pydict :=
  <[ "status" := VStr "FAILED" ]> {[ "error" := VStr "timeout" ]}.

Definition error_answer : pydict :=
  {[ "error" := VStr "malformed response" ]}.

(** A complete payload with a field that happens to be named [error]. *)
Definition payload_with_error_field : pydict :=
  <[ "cashback" := VInt 5 ]> {[ "error" := VStr "late payment fee" ]}.

Definition connection_lost : pyexn :=
  PyExn true "ConnectionError" "connection lost".

(** The page is fetched and parsed, every call succeeds. *)
Definition env_steady : Env :=
  mkEnv quiet (comparing_fetch fingerprint page) (fun _ => Ok payload).

Definition env_steady' : Env :=
  mkEnv quiet (comparing_fetch fingerprint page') (fun _ => Ok payload).

Definition env_unchanged : Env :=
  mkEnv quiet (fun _ _ _ => Ok unchanged_answer) (fun _ => Ok payload).

Definition env_fetch_failed : Env :=
  mkEnv quiet (fun _ _ _ => Ok failed_answer) (fun _ => Ok payload).

Definition env_parse_failed : Env :=
  mkEnv quiet (comparing_fetch fingerprint page) (fun _ => Ok error_answer).

Definition env_error_field : Env :=
  mkEnv quiet (comparing_fetch fingerprint page)
        (fun _ => Ok payload_with_error_field).

(** The crawler raises instead of reporting FAILED. *)
Definition env_crawler_raises : Env :=
  mkEnv quiet
        (fun _ _ _ => Raise (PyExn true "TimeoutError" "page load timed out"))
        (fun _ => Ok payload).

(** The parser raises instead of answering with an [error] entry. *)
Definition env_parser_raises : Env :=
  mkEnv quiet (comparing_fetch fingerprint page)
        (fun _ => Raise (PyExn true "ValueError" "invalid JSON")).

(** [BankCrawler(headless=True)] cannot start its browser. *)
Definition env_no_browser : Env :=
  mkEnv (fun c _ =>
           match c with
           | Call_BankCrawler _ =>
               Some (PyExn true "RuntimeError" "browser not installed")
           | _ => None
           end)
        (comparing_fetch fingerprint page) (fun _ => Ok payload).

(** The database connection is lost after the version was saved: the
    call that records SUCCESS raises. *)
Definition log_fails (c : Call) (st : Store) : option pyexn :=
  match c with
  | Call_log_crawl_result _ status _ =>
      if String.eqb status "SUCCESS" then Some connection_lost else None
  | _ => None
  end.

Definition env_log_fails : Env :=
  mkEnv log_fails (comparing_fetch fingerprint page) (fun _ => Ok payload).

Definition env_log_fails' : Env :=
  mkEnv log_fails (comparing_fetch fingerprint page') (fun _ => Ok payload).

End Sample.

(** ** More observations: calls, process log, seeding *)

Module Trace.

(** The lines a run adds to the process log. *)
Definition new_console (e : Env) (w : World) : list LogLine :=
  drop (length (console w)) (console (run e w)).

(** The line written by the handler of lines 67-68. *)
Definition fatal_line (ex : pyexn) : LogLine :=
  mkLogLine ERROR "ETL fatal error: {str(e)}" [VStr (exn_str ex)].

Definition is_crawl_call (c : Call) : bool :=
  match c with
  | Call_process_card_url _ _ _ => true
  | _ => false
  end.

Definition is_save_call (c : Call) : bool :=
  match c with
  | Call_save_card_version _ _ _ _ _ => true
  | _ => false
  end.

Definition is_log_call (c : Call) : bool :=
  match c with
  | Call_log_crawl_result _ _ _ => true
  | _ => false
  end.

(** The database once line 19 has put the bank in place. *)
Definition bank_seeded (st : Store) : Store :=
  snd (get_or_create_bank_row bank_name_0 bank_code_0 st).

(** The calls lines 33-65 can make for the crawler's answer [d], in
    order: none (a key is missing); one outcome write; the parser alone
    (it raised); the parser and the AI_FAILED write; the parser and the
    version write; the parser and both writes. *)
Inductive tail_calls (e : Env) (card : Z) (d : pydict) : list Call -> Prop :=
  | tail_nothing :
      tail_calls e card d []
  | tail_no_change :
      tail_calls e card d [Call_log_crawl_result card "NO_CHANGE" VNone]
  | tail_failed :
      tail_calls e card d
        [Call_log_crawl_result card "FAILED" (dict_get d "error")]
  | tail_parser_raised c :
      d !! "content" = Some c ->
      tail_calls e card d [Call_parse_markdown_to_json c]
  | tail_ai_failed c m err :
      d !! "content" = Some c ->
      on_parse_markdown_to_json e c = Ok m ->
      m !! "error" = Some err ->
      tail_calls e card d
        [Call_parse_markdown_to_json c;
         Call_log_crawl_result card "AI_FAILED" err]
  | tail_save c h m :
      d !! "content" = Some c -> d !! "hash" = Some h ->
      on_parse_markdown_to_json e c = Ok m ->
      m !! "error" = None ->
      tail_calls e card d
        [Call_parse_markdown_to_json c;
         Call_save_card_version card "2026-Q1" h m c]
  | tail_save_log c h m :
      d !! "content" = Some c -> d !! "hash" = Some h ->
      on_parse_markdown_to_json e c = Ok m ->
      m !! "error" = None ->
      tail_calls e card d
        [Call_parse_markdown_to_json c;
         Call_save_card_version card "2026-Q1" h m c;
         Call_log_crawl_result card "SUCCESS" VNone].

(** The calls of a whole run: a beginning of the constructors' and the
    fetch calls when an exception came before the crawler's answer, or
    all of them followed by the calls of lines 33-65. *)
Definition run_calls (e : Env) (w : World) (cs : list Call) : Prop :=
  (cs `prefix_of` setup_calls ++ fetch_calls (db w) /\ raised e w <> None)
  \/ (exists d tail,
        fetched e (db w) = Ok d
        /\ cs = setup_calls ++ fetch_calls (db w) ++ tail
        /\ tail_calls e (target_card (db w)) d tail).

(** How far seeding got in the database [st'] that a [try] block
    started on [st] leaves. *)
Definition seeding_stage (st st' : Store) : Prop :=
  exists st0,
    (st0 = st \/ st0 = bank_seeded st \/ st0 = seeded st)
    /\ banks st' = banks st0 /\ cards st' = cards st0.

End Trace.
Export Trace.

(** ** More sample collaborators *)

Module Sample2.

Import Sample.

(** The crawler's answer has no [status]. *)
Definition env_no_status : Env :=
  mkEnv quiet (fun _ _ _ => Ok {[ "content" := VStr page ]})
        (fun _ => Ok payload).

(** The crawler's answer has a status that [main] does not know. *)
Definition odd_answer : pydict :=
  <[ "status" := VStr "UPDATED" ]>
    (<[ "content" := VStr page ]> {[ "hash" := VStr (fingerprint page) ]}).

Definition env_odd_status : Env :=
  mkEnv quiet (fun _ _ _ => Ok odd_answer) (fun _ => Ok payload).

(** The crawler reports a change without a fingerprint. *)
Definition no_hash_answer : pydict :=
  <[ "status" := VStr "CHANGED" ]> {[ "content" := VStr page ]}.

Definition env_no_hash : Env :=
  mkEnv quiet (fun _ _ _ => Ok no_hash_answer) (fun _ => Ok payload).

(** The crawler reports FAILED without saying why. *)
Definition env_failed_silent : Env :=
  mkEnv quiet (fun _ _ _ => Ok {[ "status" := VStr "FAILED" ]})
        (fun _ => Ok payload).

(** The task is cancelled while the crawler is awaited. *)
Definition cancelled : pyexn := PyExn false "CancelledError" "".

Definition env_cancelled : Env :=
  mkEnv quiet (fun _ _ _ => Raise cancelled) (fun _ => Ok payload).

(** [DatabaseOps()] cannot connect. *)
Definition env_db_down : Env :=
  mkEnv (fun c _ =>
           match c with
           | Call_DatabaseOps => Some connection_lost
           | _ => None
           end)
        (comparing_fetch fingerprint page) (fun _ => Ok payload).

(** The database refuses every audit row: [log_crawl_result] raises
    whatever the outcome. *)
Definition log_down (c : Call) (st : Store) : option pyexn :=
  match c with
  | Call_log_crawl_result _ _ _ => Some connection_lost
  | _ => None
  end.

Definition env_unchanged_log_down : Env :=
  mkEnv log_down (fun _ _ _ => Ok unchanged_answer) (fun _ => Ok payload).

Definition env_fetch_failed_log_down : Env :=
  mkEnv log_down (fun _ _ _ => Ok failed_answer) (fun _ => Ok payload).

Definition env_parse_failed_log_down : Env :=
  mkEnv log_down (comparing_fetch fingerprint page)
        (fun _ => Ok error_answer).

(** The parser quotes the text it could not parse in its [error] entry. *)
Definition env_echo : Env :=
  mkEnv quiet (comparing_fetch fingerprint page)
        (fun c => Ok {[ "error" := c ]}).

End Sample2.

(** * Lemmas *)

(** ** Stepping through the monad *)

Section Steps.

Context {A B : Type}.

Lemma db_call_eq e c (op : Store -> A * Store) w :
  db_call e c op w =
  match fault e c (db w) with
  | Some ex => (Raise ex, record_call c w)
  | None => (Ok (fst (op (db w))),
             mkWorld (snd (op (db w))) (calls w ++ [c]) (console w))
  end.
Proof. reflexivity. Qed.

Lemma bind_db_call e c (op : Store -> A * Store) (k : A -> M B) w :
  bind (db_call e c op) k w =
  match fault e c (db w) with
  | Some ex => (Raise ex, record_call c w)
  | None => k (fst (op (db w)))
              (mkWorld (snd (op (db w))) (calls w ++ [c]) (console w))
  end.
Proof. unfold bind, db_call. by destruct (fault e c (db w)). Qed.

Lemma bind_ext_call c (r : res A) (k : A -> M B) w :
  bind (ext_call c r) k w =
  match r with
  | Ok a => k a (record_call c w)
  | Raise ex => (Raise ex, record_call c w)
  end.
Proof. unfold bind, ext_call. by destruct r. Qed.

Lemma bind_logger lvl msg args (k : unit -> M B) w :
  bind (logger lvl msg args) k w =
  k tt (mkWorld (db w) (calls w) (console w ++ [mkLogLine lvl msg args])).
Proof. reflexivity. Qed.

Lemma bind_subscript d key (k : pyval -> M B) w :
  bind (subscript d key) k w =
  match d !! key with
  | Some v => k v w
  | None => (Raise (KeyError key), w)
  end.
Proof. unfold bind, subscript. by destruct (d !! key). Qed.

End Steps.

(** ** The tables under seeding and appending *)

Section Tables.

Lemma add_rows_nil st : add_rows st [] [] = st.
Proof. destruct st. unfold add_rows. cbn. by rewrite !app_nil_r. Qed.

Lemma log_row_add_rows card status err st :
  log_crawl_result_row card status err st
  = add_rows st [] [mkCrawlLog card status err].
Proof. unfold log_crawl_result_row, add_rows. by rewrite app_nil_r. Qed.

Lemma save_row_add_rows card name h m c st :
  save_card_version_row card name h m c st
  = add_rows st [mkCardVersion card name h m c] [].
Proof. unfold save_card_version_row, add_rows. by rewrite app_nil_r. Qed.

Lemma save_log_add_rows card name h m c status err st :
  log_crawl_result_row card status err
    (save_card_version_row card name h m c st)
  = add_rows st [mkCardVersion card name h m c] [mkCrawlLog card status err].
Proof. reflexivity. Qed.

Lemma find_app {A} (f : A -> bool) l1 l2 :
  List.find f (l1 ++ l2)
  = match List.find f l1 with
    | Some x => Some x
    | None => List.find f l2
    end.
Proof. induction l1 as [|a l1 IH]; cbn; [done|]. by destruct (f a). Qed.

Lemma find_or_add_bank_again name code bs :
  find_or_add_bank name code (snd (find_or_add_bank name code bs))
  = find_or_add_bank name code bs.
Proof.
  unfold find_or_add_bank.
  destruct (List.find (bank_matches name code) bs) as [b|] eqn:Hf; cbn.
  - by rewrite Hf.
  - rewrite find_app, Hf. cbn. unfold bank_matches. cbn.
    by rewrite !String.eqb_refl.
Qed.

Lemma find_or_add_card_again bank name url cs :
  find_or_add_card bank name url (snd (find_or_add_card bank name url cs))
  = find_or_add_card bank name url cs.
Proof.
  unfold find_or_add_card.
  destruct (List.find (card_matches bank name url) cs) as [c|] eqn:Hf; cbn.
  - by rewrite Hf.
  - rewrite find_app, Hf. cbn. unfold card_matches. cbn.
    by rewrite Z.eqb_refl, !String.eqb_refl.
Qed.

(** Seeding again changes nothing, whatever rows were appended since. *)
Lemma seed_again st vs ls :
  seed (add_rows (seeded st) vs ls)
  = (target_card st, add_rows (seeded st) vs ls).
Proof.
  unfold target_card, seeded, seed, get_or_create_card_row,
    get_or_create_bank_row, add_rows. cbn.
  by rewrite find_or_add_bank_again, find_or_add_card_again.
Qed.

Lemma latest_version_logs card st ls :
  latest_version card (add_rows st [] ls) = latest_version card st.
Proof. unfold latest_version, add_rows. cbn. by rewrite app_nil_r. Qed.

Lemma latest_version_new card st v ls :
  cv_card v = card ->
  latest_version card (add_rows st [v] ls) = Some v.
Proof.
  intros Hv. unfold latest_version, add_rows. cbn.
  rewrite List.filter_app. cbn. unfold version_of at 2.
  rewrite Hv, Z.eqb_refl. apply last_snoc.
Qed.

Lemma last_hash_of_row card st w :
  last_hash_of (get_latest_card_version_row card st) w
  = (Ok match latest_version card st with
        | Some v => cv_hash v
        | None => VNone
        end, w).
Proof.
  unfold get_latest_card_version_row.
  destruct (latest_version card st) as [v|]; [|done]. cbn.
  unfold dict_truthy. rewrite map_size_singleton. cbn.
  unfold subscript. by rewrite lookup_singleton_eq.
Qed.

Lemma bind_last_hash_of_row {B} card st (k : pyval -> M B) w :
  bind (last_hash_of (get_latest_card_version_row card st)) k w
  = k match latest_version card st with
      | Some v => cv_hash v
      | None => VNone
      end w.
Proof. unfold bind. by rewrite last_hash_of_row. Qed.

Lemma py_eq_str_refl s : py_eq_str (VStr s) s = true.
Proof. apply String.eqb_refl. Qed.

Lemma comparing_fetch_cases fp page card url h d :
  comparing_fetch fp page card url h = Ok d ->
  (py_eq_str h (fp page) = true /\ d = unchanged_answer)
  \/ (py_eq_str h (fp page) = false /\ d = changed_answer page (fp page)).
Proof.
  unfold comparing_fetch. destruct (py_eq_str h (fp page)); intros [= <-]; auto.
Qed.

End Tables.

(** ** Every run: the rows it can write *)

Section RunFacts.

Lemma main_try_classify e :
  main_try e =
  (bank <- get_or_create_bank e bank_name_0 bank_code_0 ;;
   card <- get_or_create_card e bank card_name_0 target_url ;;
   logger INFO "Processing Card: 富邦 J 卡 (ID: {card_id})" [VInt card] ;;
   last_version <- get_latest_card_version e card ;;
   last_hash <- last_hash_of last_version ;;
   crawl_result <- process_card_url e card target_url last_hash ;;
   classify e card crawl_result).
Proof. reflexivity. Qed.

Ltac nothing_written :=
  exists [], []; split; [by rewrite add_rows_nil | constructor].

Ltac rows vs ls :=
  exists vs, ls; split; [unfold add_rows; cbn; by rewrite ?app_nil_r |].

Lemma classify_effect e card d w :
  exists vs ls,
    db (snd (classify e card d w)) = add_rows (db w) vs ls
    /\ try_effect e card d (fst (classify e card d w)) vs ls.
Proof.
  unfold classify.
  rewrite bind_subscript.
  destruct (d !! "status") as [status|] eqn:Hstatus; [|nothing_written].
  destruct (py_eq_str status "NO_CHANGE") eqn:Hnc.
  { rewrite bind_logger. unfold log_crawl_result. rewrite db_call_eq.
    destruct (fault _ _ _); [nothing_written|].
    rows (@nil CardVersion) [mkCrawlLog card "NO_CHANGE" VNone].
    by econstructor. }
  rewrite bind_subscript, Hstatus.
  destruct (py_eq_str status "FAILED") eqn:Hf.
  { rewrite bind_logger. unfold log_crawl_result. rewrite db_call_eq.
    destruct (fault _ _ _); [nothing_written|].
    rows (@nil CardVersion) [mkCrawlLog card "FAILED" (dict_get d "error")].
    by econstructor. }
  rewrite bind_logger, bind_subscript.
  destruct (d !! "content") as [c|] eqn:Hc; [|nothing_written].
  rewrite bind_subscript.
  destruct (d !! "hash") as [h|] eqn:Hh; [|nothing_written].
  unfold parse_markdown_to_json. rewrite bind_ext_call.
  destruct (on_parse_markdown_to_json e c) as [m|ex] eqn:Hp;
    [|nothing_written].
  unfold py_in.
  destruct (m !! "error") as [err|] eqn:Herr.
  { rewrite bind_subscript, Herr, bind_logger, bind_subscript, Herr.
    unfold log_crawl_result. rewrite db_call_eq.
    destruct (fault _ _ _); [nothing_written|].
    rows (@nil CardVersion) [mkCrawlLog card "AI_FAILED" err].
    by econstructor. }
  rewrite bind_logger. unfold save_card_version. rewrite bind_db_call.
  destruct (fault _ _ _); [nothing_written|].
  cbn [fst snd]. unfold log_crawl_result. rewrite bind_db_call.
  destruct (fault _ _ _) eqn:Hlog.
  { rows [mkCardVersion card "2026-Q1" h m c] (@nil CrawlLog).
    by econstructor. }
  rows [mkCardVersion card "2026-Q1" h m c]
       [mkCrawlLog card "SUCCESS" VNone].
  by constructor.
Qed.

Ltac raised_early :=
  left; eexists; split; [reflexivity|]; split; reflexivity.

Lemma main_try_effect e w :
  try_outcome e (db w) (fst (main_try e w)) (db (snd (main_try e w))).
Proof.
  rewrite main_try_classify.
  unfold get_or_create_bank. rewrite bind_db_call.
  destruct (fault _ _ _); [raised_early|].
  unfold get_or_create_card. rewrite bind_db_call. cbn [db calls console].
  destruct (fault _ _ _); [raised_early|].
  rewrite bind_logger. cbn [db calls console].
  unfold get_latest_card_version. rewrite bind_db_call. cbn [db calls console].
  destruct (fault _ _ _); [raised_early|].
  cbn [fst snd]. rewrite bind_last_hash_of_row.
  unfold process_card_url. rewrite bind_ext_call.
  destruct (on_process_card_url _ _ _ _) as [d|ex] eqn:Hd; [|raised_early].
  right.
  match goal with |- context [classify e ?card d ?w2] =>
    destruct (classify_effect e card d w2) as (vs & ls & Ha & Ht)
  end.
  exists d, vs, ls. split; [exact Hd|]. split; [exact Ha|exact Ht].
Qed.

Lemma main_setup_db e w : db (snd (main_setup e w)) = db w.
Proof.
  unfold main_setup, DatabaseOps, BankCrawler, RewardsParser.
  rewrite bind_db_call. destruct (fault _ _ _); [done|].
  rewrite bind_db_call. destruct (fault _ _ _); [done|].
  rewrite db_call_eq. by destruct (fault _ _ _).
Qed.

Lemma run_effect e w :
  try_outcome e (db w) (completion e w) (db (run e w)).
Proof.
  unfold completion, raised, run, main, bind.
  pose proof (main_setup_db e w) as Hdb.
  destruct (main_setup e w) as [[[]|ex] w1]; cbn [fst snd] in *.
  2:{ left. exists ex. by rewrite Hdb. }
  pose proof (main_try_effect e w1) as Ht. rewrite Hdb in Ht.
  unfold try_except_Exception.
  destruct (main_try e w1) as [[[]|ex] w2]; cbn [fst snd] in *; [done|].
  by destruct (exn_derives_Exception ex).
Qed.

(** An exception reaches the caller of [main] only from a constructor,
    or when it does not derive from [Exception]. *)
Lemma result_raise e w ex :
  result e w = Raise ex ->
  fst (main_setup e w) = Raise ex
  \/ (raised e w = Some ex /\ exn_derives_Exception ex = false).
Proof.
  unfold result, raised, main, bind.
  destruct (main_setup e w) as [[[]|ex0] w1]; cbn [fst snd]; [|by left].
  unfold try_except_Exception.
  destruct (main_try e w1) as [[[]|ex1] w2]; cbn [fst snd]; [done|].
  destruct (exn_derives_Exception ex1) eqn:Hx; cbn; [done|].
  intros [= ->]. by right.
Qed.

Lemma result_clean e w : raised e w = None -> result e w = Ok tt.
Proof.
  unfold result, raised, main, bind.
  destruct (main_setup e w) as [[[]|ex0] w1]; cbn [fst snd]; [|done].
  unfold try_except_Exception.
  by destruct (main_try e w1) as [[[]|ex1] w2].
Qed.

Lemma completion_raised e w ex :
  completion e w = Raise ex -> raised e w = Some ex.
Proof.
  unfold completion. destruct (raised e w); [|done]. by intros [= ->].
Qed.

Lemma completion_clean e w : completion e w = Ok tt -> raised e w = None.
Proof. unfold completion. by destruct (raised e w). Qed.

Lemma rows_of_run e w vs ls :
  db (run e w) = add_rows (seeded (db w)) vs ls ->
  new_versions e w = vs /\ new_logs e w = ls.
Proof.
  unfold new_versions, new_logs. intros ->. cbn.
  by rewrite !drop_app_length.
Qed.

Lemma new_calls_app e w l :
  calls (run e w) = calls w ++ l -> new_calls e w = l.
Proof. unfold new_calls. intros ->. by rewrite drop_app_length. Qed.

Lemma run_rows e w :
  exists card d,
    card_versions (db (run e w)) = card_versions (db w) ++ new_versions e w
    /\ crawl_logs (db (run e w)) = crawl_logs (db w) ++ new_logs e w
    /\ try_effect e card d (completion e w) (new_versions e w)
                  (new_logs e w).
Proof.
  unfold new_versions, new_logs.
  destruct (run_effect e w) as [(ex & -> & Hv & Hl)|(d & vs & ls & _ & -> & Ht)].
  - rewrite Hv, Hl, !drop_all, !app_nil_r. exists 0, ∅.
    split; [done|]. split; [done|]. constructor.
  - cbn. rewrite !drop_app_length. eauto.
Qed.

Lemma effect_counts e card d r vs ls T :
  try_effect e card d r vs ls ->
  (length (List.filter (success_of T) ls)
   <= length (List.filter (version_of T) vs))%nat
  /\ (success_log_reliable e ->
      length (List.filter (success_of T) ls)
      = length (List.filter (version_of T) vs)).
Proof.
  destruct 1 as [ex|s ? ?|s ? ?|c m err ? ? ?|c h m ex st ? ? ? ? Hf|c h m ? ? ? ?];
    cbn; unfold success_of, version_of, log_of, is_success; cbn;
    rewrite ?andb_false_r; cbn; try (split; [lia|done]).
  - split; [lia|]. intros Hrel. by rewrite Hrel in Hf.
  - rewrite andb_true_r. destruct (card =? T); cbn; split; (lia || done).
Qed.

Lemma effect_length e card d r vs ls :
  try_effect e card d r vs ls ->
  length ls = match r with Ok _ => 1%nat | Raise _ => 0%nat end
  /\ Forall (fun l => cl_status l ∈ outcome_kinds) ls.
Proof.
  destruct 1; cbn; (split; [done|]); repeat constructor;
    unfold outcome_kinds; cbn; set_solver.
Qed.

Lemma effect_success e card d r vs ls :
  try_effect e card d r vs ls ->
  (has_success ls = true -> exists v, vs = [v])
  /\ (success_log_reliable e -> vs <> [] -> has_success ls = true).
Proof.
  destruct 1 as [ex|s ? ?|s ? ?|c m err ? ? ?|c h m ex st ? ? ? ? Hf|c h m ? ? ? ?];
    cbn; (split; [try discriminate; by eauto|]); try done.
  intros Hrel. by rewrite Hrel in Hf.
Qed.

Lemma success_row e w :
  has_success (new_logs e w) = true ->
  exists l, new_logs e w = [l] /\ cl_status l = "SUCCESS".
Proof.
  destruct (run_rows e w) as (card & d & _ & _ & Ht).
  destruct Ht; cbn; try discriminate; eauto.
Qed.

End RunFacts.

(** ** Successive runs *)

Section Counting.

Lemma runs_cons e es w : runs (e :: es) w = runs es (run e w).
Proof. reflexivity. Qed.

Lemma count_versions_run e w T :
  count_versions T (db (run e w))
  = (count_versions T (db w)
     + length (List.filter (version_of T) (new_versions e w)))%nat.
Proof.
  destruct (run_rows e w) as (card & d & Hv & _ & _).
  unfold count_versions. by rewrite Hv, List.filter_app, length_app.
Qed.

Lemma count_successes_run e w T :
  count_successes T (db (run e w))
  = (count_successes T (db w)
     + length (List.filter (success_of T) (new_logs e w)))%nat.
Proof.
  destruct (run_rows e w) as (card & d & _ & Hl & _).
  unfold count_successes. by rewrite Hl, List.filter_app, length_app.
Qed.

Lemma successes_le_versions es w T :
  (count_successes T (db (runs es w)) + count_versions T (db w)
   <= count_versions T (db (runs es w)) + count_successes T (db w))%nat.
Proof.
  revert w. induction es as [|e es IH]; intros w; [cbn; lia|].
  rewrite runs_cons. specialize (IH (run e w)).
  rewrite count_versions_run, count_successes_run in IH.
  destruct (run_rows e w) as (card & d & _ & _ & Ht).
  apply (effect_counts _ _ _ _ _ _ T) in Ht as [Hle _]. lia.
Qed.

Lemma successes_eq_versions es w T :
  Forall success_log_reliable es ->
  (count_versions T (db (runs es w)) + count_successes T (db w)
   = count_successes T (db (runs es w)) + count_versions T (db w))%nat.
Proof.
  intros Hall. revert w.
  induction Hall as [|e es He _ IH]; intros w; [cbn; lia|].
  rewrite runs_cons. specialize (IH (run e w)).
  rewrite count_versions_run, count_successes_run in IH.
  destruct (run_rows e w) as (card & d & _ & _ & Ht).
  apply (effect_counts _ _ _ _ _ _ T) in Ht as [_ Heq].
  specialize (Heq He). lia.
Qed.

Lemma new_logs_length e w :
  length (new_logs e w)
  = match raised e w with Some _ => 0%nat | None => 1%nat end.
Proof.
  destruct (run_rows e w) as (card & d & _ & _ & Ht).
  apply effect_length in Ht as [-> _]. unfold completion.
  by destruct (raised e w).
Qed.

Lemma logs_after_runs es w :
  length (crawl_logs (db (runs es w)))
  = (length (crawl_logs (db w)) + clean_runs es w)%nat.
Proof.
  revert w. induction es as [|e es IH]; intros w; [cbn; lia|].
  rewrite runs_cons, IH. cbn [clean_runs].
  destruct (run_rows e w) as (card & d & _ & -> & _).
  rewrite length_app, new_logs_length. lia.
Qed.

Lemma clean_runs_le es w : (clean_runs es w <= length es)%nat.
Proof.
  revert w. induction es as [|e es IH]; intros w; cbn; [lia|].
  specialize (IH (run e w)). destruct (raised e w); lia.
Qed.

End Counting.

(** ** Runs in which the reads succeed *)

Section Paths.

Lemma no_fault_reads e : no_fault e -> reads_succeed e.
Proof. intros H c st _. apply H. Qed.

Lemma main_setup_ok e w :
  reads_succeed e ->
  main_setup e w
  = (Ok tt, mkWorld (db w) (calls w ++ setup_calls) (console w)).
Proof.
  intros Hr. unfold main_setup, DatabaseOps, BankCrawler, RewardsParser.
  rewrite bind_db_call, Hr by done. cbn [fst snd db calls console].
  rewrite bind_db_call, Hr by done. cbn [fst snd db calls console].
  rewrite db_call_eq, Hr by done. cbn [fst snd db calls console].
  unfold setup_calls. by rewrite <- !app_assoc.
Qed.

Lemma main_try_to_classify e w d :
  reads_succeed e ->
  fetched e (db w) = Ok d ->
  exists w2,
    db w2 = seeded (db w)
    /\ calls w2 = calls w ++ fetch_calls (db w)
    /\ main_try e w = classify e (target_card (db w)) d w2.
Proof.
  intros Hr Hd. rewrite main_try_classify.
  unfold get_or_create_bank. rewrite bind_db_call, Hr by done.
  unfold get_or_create_card. rewrite bind_db_call, Hr by done.
  cbn [fst snd db calls console].
  rewrite bind_logger. cbn [db calls console].
  unfold get_latest_card_version. rewrite bind_db_call, Hr by done.
  cbn [fst snd db calls console]. rewrite bind_last_hash_of_row.
  unfold process_card_url. rewrite bind_ext_call.
  unfold fetched, last_known_hash, target_card, seeded, seed in Hd.
  cbn zeta in Hd. rewrite Hd.
  eexists. split; [|split; [|reflexivity]].
  - reflexivity.
  - cbn. unfold fetch_calls. by rewrite <- !app_assoc.
Qed.

(** A run whose reads succeed is decided by lines 33-65: they run on the
    seeded database, and the handler of line 67 writes to the process log
    only. *)
Lemma run_via_classify e w d :
  reads_succeed e ->
  fetched e (db w) = Ok d ->
  exists w2,
    db w2 = seeded (db w)
    /\ calls w2 = calls w ++ setup_calls ++ fetch_calls (db w)
    /\ db (run e w) = db (snd (classify e (target_card (db w)) d w2))
    /\ calls (run e w) = calls (snd (classify e (target_card (db w)) d w2))
    /\ completion e w = fst (classify e (target_card (db w)) d w2)
    /\ (fst (classify e (target_card (db w)) d w2) = Ok tt ->
        result e w = Ok tt).
Proof.
  intros Hr Hd.
  destruct (main_try_to_classify e
              (mkWorld (db w) (calls w ++ setup_calls) (console w)) d Hr Hd)
    as (w2 & Hdb & Hcalls & Htry).
  exists w2. cbn [db calls] in Hdb, Hcalls, Htry.
  unfold completion, raised, run, result, main, bind.
  rewrite (main_setup_ok e w Hr). unfold try_except_Exception.
  rewrite Htry.
  split; [done|]. split; [by rewrite Hcalls, <- app_assoc|].
  destruct (classify e (target_card (db w)) d w2) as [[[]|ex] w3]; cbn;
    [done|].
  by destruct (exn_derives_Exception ex).
Qed.

Lemma log_crawl_result_eq e card status err w :
  log_crawl_result e card status err w
  = match fault e (Call_log_crawl_result card status err) (db w) with
    | Some ex =>
        (Raise ex,
         mkWorld (db w)
                 (calls w ++ [Call_log_crawl_result card status err])
                 (console w))
    | None =>
        (Ok tt,
         mkWorld (log_crawl_result_row card status err (db w))
                 (calls w ++ [Call_log_crawl_result card status err])
                 (console w))
    end.
Proof. unfold log_crawl_result. by rewrite db_call_eq. Qed.

(** Lines 33-36. *)
Lemma classify_no_change e card d w :
  d !! "status" = Some (VStr "NO_CHANGE") ->
  classify e card d w
  = log_crawl_result e card "NO_CHANGE" VNone
      (mkWorld (db w) (calls w)
         (console w ++
            [mkLogLine INFO "Content not changed. Skipping AI parse." []])).
Proof.
  intros Hs. unfold classify. rewrite bind_subscript, Hs. cbn [py_eq_str].
  change ("NO_CHANGE" =? "NO_CHANGE")%string with true. cbv iota.
  by rewrite bind_logger.
Qed.

(** Lines 38-41. *)
Lemma classify_failed e card d w :
  d !! "status" = Some (VStr "FAILED") ->
  classify e card d w
  = log_crawl_result e card "FAILED" (dict_get d "error")
      (mkWorld (db w) (calls w)
         (console w ++
            [mkLogLine ERROR "Crawl failed: {crawl_result.get('error')}"
                       [dict_get d "error"]])).
Proof.
  intros Hs. unfold classify. rewrite bind_subscript, Hs. cbn [py_eq_str].
  change ("FAILED" =? "NO_CHANGE")%string with false. cbv iota.
  rewrite bind_subscript, Hs. cbn [py_eq_str].
  change ("FAILED" =? "FAILED")%string with true. cbv iota.
  by rewrite bind_logger.
Qed.

(** Lines 43-48: a changed page reaches the parser. *)
Lemma classify_changed e card d c h w :
  is_changed d c h ->
  classify e card d w
  = (rewards_json <- parse_markdown_to_json e c ;;
     if py_in "error" rewards_json then
       err <- subscript rewards_json "error" ;;
       logger ERROR "AI Parse failed: {rewards_json['error']}" [err] ;;
       err <- subscript rewards_json "error" ;;
       log_crawl_result e card "AI_FAILED" err
     else
       logger INFO "AI Parse success. Saving to DB..." [] ;;
       save_card_version e card "2026-Q1" h rewards_json c ;;
       log_crawl_result e card "SUCCESS" VNone ;;
       logger INFO "ETL process completed successfully." [])
      (mkWorld (db w) (calls w)
               (console w ++
                  [mkLogLine INFO "Content changed. Calling AI Parser..." []])).
Proof.
  intros (Hs & Hc & Hh). unfold classify.
  rewrite bind_subscript, Hs. cbn [py_eq_str].
  change ("CHANGED" =? "NO_CHANGE")%string with false. cbv iota.
  rewrite bind_subscript, Hs. cbn [py_eq_str].
  change ("CHANGED" =? "FAILED")%string with false. cbv iota.
  by rewrite bind_logger, bind_subscript, Hc, bind_subscript, Hh.
Qed.

(** Lines 50-53. *)
Lemma classify_ai_failed e card d c h m err w :
  is_changed d c h ->
  on_parse_markdown_to_json e c = Ok m ->
  m !! "error" = Some err ->
  classify e card d w
  = log_crawl_result e card "AI_FAILED" err
      (mkWorld (db w) (calls w ++ [Call_parse_markdown_to_json c])
         ((console w ++
             [mkLogLine INFO "Content changed. Calling AI Parser..." []]) ++
            [mkLogLine ERROR "AI Parse failed: {rewards_json['error']}"
                       [err]])).
Proof.
  intros Hch Hp He. rewrite (classify_changed _ _ _ _ _ _ Hch).
  unfold parse_markdown_to_json. rewrite bind_ext_call, Hp.
  unfold py_in. rewrite He.
  by rewrite bind_subscript, He, bind_logger, bind_subscript, He.
Qed.

(** Lines 55-65: the two writes, in the order of the source, each of
    which may fail. *)
Lemma classify_commit e card d c h m w :
  is_changed d c h ->
  on_parse_markdown_to_json e c = Ok m ->
  m !! "error" = None ->
  let r := classify e card d w in
  let save := Call_save_card_version card "2026-Q1" h m c in
  let record := Call_log_crawl_result card "SUCCESS" VNone in
  let saved := save_card_version_row card "2026-Q1" h m c (db w) in
  match fault e save (db w) with
  | Some ex =>
      fst r = Raise ex /\ db (snd r) = db w
      /\ calls (snd r) = calls w ++ [Call_parse_markdown_to_json c; save]
  | None =>
      calls (snd r)
      = calls w ++ [Call_parse_markdown_to_json c; save; record]
      /\ match fault e record saved with
         | Some ex => fst r = Raise ex /\ db (snd r) = saved
         | None =>
             fst r = Ok tt
             /\ db (snd r) = log_crawl_result_row card "SUCCESS" VNone saved
         end
  end.
Proof.
  intros Hch Hp He. cbv zeta. rewrite (classify_changed _ _ _ _ _ _ Hch).
  unfold parse_markdown_to_json. rewrite bind_ext_call, Hp.
  unfold py_in. rewrite He. rewrite bind_logger.
  unfold save_card_version. rewrite bind_db_call.
  cbn [db calls console record_call].
  destruct (fault _ _ _).
  { cbn. by rewrite <- app_assoc. }
  cbn [fst snd]. unfold log_crawl_result. rewrite bind_db_call.
  cbn [db calls console].
  destruct (fault _ _ _); cbn; by rewrite <- !app_assoc.
Qed.

End Paths.

(** ** The four documented endings, as changes of the database *)

Section Endings.

(** A run whose reads succeed and in which lines 33-65 come down to one
    call of [log_crawl_result], after the calls [pre]: that call is the
    only write the run asks for; no version is created; and the audit
    table gains the row exactly when the call does not raise. *)
Lemma log_ending e w d status err pre :
  reads_succeed e ->
  fetched e (db w) = Ok d ->
  (forall w2, exists w3,
      db w3 = db w2 /\ calls w3 = calls w2 ++ pre
      /\ classify e (target_card (db w)) d w2
         = log_crawl_result e (target_card (db w)) status err w3) ->
  List.filter is_write pre = [] ->
  let card := target_card (db w) in
  let record := Call_log_crawl_result card status err in
  List.filter is_write (new_calls e w) = [record]
  /\ List.filter is_parse_call (new_calls e w) = List.filter is_parse_call pre
  /\ new_versions e w = []
  /\ (fault e record (seeded (db w)) = None ->
      new_logs e w = [mkCrawlLog card status err]
      /\ db (run e w) = log_crawl_result_row card status err (seeded (db w))
      /\ result e w = Ok tt)
  /\ (forall ex,
        fault e record (seeded (db w)) = Some ex ->
        new_logs e w = [] /\ raised e w = Some ex).
Proof.
  intros Hr Hd Hcl Hpre. cbv zeta.
  destruct (run_via_classify e w d Hr Hd)
    as (w2 & Hdb & Hcalls & Hrun & Hrc & Hcomp & _).
  destruct (Hcl w2) as (w3 & Hdb3 & Hcalls3 & Heq).
  rewrite Heq, log_crawl_result_eq, Hdb3, Hdb in Hrun, Hrc, Hcomp.
  assert (Hnew : new_calls e w
                 = setup_calls ++ fetch_calls (db w) ++ pre
                   ++ [Call_log_crawl_result (target_card (db w)) status err]).
  { apply new_calls_app.
    destruct (fault _ _ _); cbn in Hrc; rewrite Hrc, Hcalls3, Hcalls;
      by rewrite <- !app_assoc. }
  rewrite Hnew, !List.filter_app, Hpre. cbn.
  split; [done|]. split; [by rewrite app_nil_r|].
  destruct (fault _ _ _) as [ex|]; cbn [fst snd db] in Hrun, Hcomp.
  - rewrite <- (add_rows_nil (seeded (db w))) in Hrun.
    apply rows_of_run in Hrun as [-> ->].
    split; [done|]. split; [done|]. intros ex' [= <-].
    split; [done|]. by apply completion_raised.
  - pose proof Hrun as Hrows. rewrite log_row_add_rows in Hrows.
    apply rows_of_run in Hrows as [-> ->].
    split; [done|]. split; [|done]. intros _.
    split; [done|]. split; [done|].
    by apply result_clean, completion_clean.
Qed.

Lemma commit_rows e w d m c h :
  reads_succeed e ->
  fetched e (db w) = Ok d ->
  is_changed d c h ->
  on_parse_markdown_to_json e c = Ok m ->
  m !! "error" = None ->
  let card := target_card (db w) in
  let save := Call_save_card_version card "2026-Q1" h m c in
  let record := Call_log_crawl_result card "SUCCESS" VNone in
  let saved := save_card_version_row card "2026-Q1" h m c (seeded (db w)) in
  match fault e save (seeded (db w)) with
  | Some ex =>
      new_calls e w
      = setup_calls ++ fetch_calls (db w)
          ++ [Call_parse_markdown_to_json c; save]
      /\ db (run e w) = seeded (db w) /\ raised e w = Some ex
  | None =>
      new_calls e w
      = setup_calls ++ fetch_calls (db w)
          ++ [Call_parse_markdown_to_json c; save; record]
      /\ match fault e record saved with
         | Some ex => db (run e w) = saved /\ raised e w = Some ex
         | None =>
             db (run e w) = log_crawl_result_row card "SUCCESS" VNone saved
             /\ raised e w = None
         end
  end.
Proof.
  intros Hr Hd Hch Hp He. cbv zeta.
  destruct (run_via_classify e w d Hr Hd)
    as (w2 & Hdb & Hcalls & Hrun & Hrc & Hcomp & _).
  pose proof (classify_commit e (target_card (db w)) d c h m w2 Hch Hp He)
    as Hc.
  cbv zeta in Hc. rewrite Hdb in Hc.
  destruct (fault _ _ _) as [ex|].
  { destruct Hc as (Hfst & Hsnd & Hcl). rewrite Hfst in Hcomp.
    rewrite Hsnd in Hrun. rewrite Hcl, Hcalls, <- !app_assoc in Hrc.
    apply new_calls_app in Hrc. auto using completion_raised. }
  destruct Hc as [Hcl Hc]. rewrite Hcl, Hcalls, <- !app_assoc in Hrc.
  apply new_calls_app in Hrc. split; [done|].
  destruct (fault _ _ _) as [ex|]; destruct Hc as [Hfst Hsnd];
    rewrite Hfst in Hcomp; rewrite Hsnd in Hrun;
    auto using completion_raised, completion_clean.
Qed.

Lemma no_change_ending e w d :
  reads_succeed e ->
  fetched e (db w) = Ok d ->
  d !! "status" = Some (VStr "NO_CHANGE") ->
  forall w2, exists w3,
    db w3 = db w2 /\ calls w3 = calls w2 ++ []
    /\ classify e (target_card (db w)) d w2
       = log_crawl_result e (target_card (db w)) "NO_CHANGE" VNone w3.
Proof.
  intros _ _ Hs w2. eexists. rewrite (classify_no_change _ _ _ _ Hs).
  split; [|split; [|reflexivity]]; cbn; by rewrite ?app_nil_r.
Qed.

Lemma failed_ending e w d :
  reads_succeed e ->
  fetched e (db w) = Ok d ->
  d !! "status" = Some (VStr "FAILED") ->
  forall w2, exists w3,
    db w3 = db w2 /\ calls w3 = calls w2 ++ []
    /\ classify e (target_card (db w)) d w2
       = log_crawl_result e (target_card (db w)) "FAILED"
                          (dict_get d "error") w3.
Proof.
  intros _ _ Hs w2. eexists. rewrite (classify_failed _ _ _ _ Hs).
  split; [|split; [|reflexivity]]; cbn; by rewrite ?app_nil_r.
Qed.

Lemma ai_failed_ending e w d m c h D :
  is_changed d c h ->
  on_parse_markdown_to_json e c = Ok m ->
  m !! "error" = Some D ->
  forall w2, exists w3,
    db w3 = db w2 /\ calls w3 = calls w2 ++ [Call_parse_markdown_to_json c]
    /\ classify e (target_card (db w)) d w2
       = log_crawl_result e (target_card (db w)) "AI_FAILED" D w3.
Proof.
  intros Hch Hp HD w2. eexists.
  rewrite (classify_ai_failed _ _ _ _ _ _ _ _ Hch Hp HD).
  split; [|split; [|reflexivity]]; done.
Qed.

(** The same run, call by call: the constructors, the calls up to the
    crawler's, [pre], and the write of the outcome; and when that write
    raises, the database is left as lines 19-20 left it. *)
Lemma log_ending_calls e w d status err pre :
  reads_succeed e ->
  fetched e (db w) = Ok d ->
  (forall w2, exists w3,
      db w3 = db w2 /\ calls w3 = calls w2 ++ pre
      /\ classify e (target_card (db w)) d w2
         = log_crawl_result e (target_card (db w)) status err w3) ->
  let record := Call_log_crawl_result (target_card (db w)) status err in
  new_calls e w = setup_calls ++ fetch_calls (db w) ++ pre ++ [record]
  /\ (forall ex,
        fault e record (seeded (db w)) = Some ex ->
        db (run e w) = seeded (db w)).
Proof.
  intros Hr Hd Hcl. cbv zeta.
  destruct (run_via_classify e w d Hr Hd)
    as (w2 & Hdb & Hcalls & Hrun & Hrc & Hcomp & _).
  destruct (Hcl w2) as (w3 & Hdb3 & Hcalls3 & Heq).
  rewrite Heq, log_crawl_result_eq, Hdb3, Hdb in Hrun, Hrc.
  split.
  - apply new_calls_app.
    destruct (fault _ _ _); cbn in Hrc; rewrite Hrc, Hcalls3, Hcalls;
      by rewrite <- !app_assoc.
  - intros ex Hex. by rewrite Hex in Hrun.
Qed.

End Endings.

(** ** Two runs over the same page *)

Section TwoRuns.

(** After a first run over [page] that saved a version, or that found
    the page unchanged, the crawler of the next run finds the page
    unchanged. *)
Lemma second_fetch fp page e1 e2 w vs ls :
  compares e2 fp page ->
  db (run e1 w) = add_rows (seeded (db w)) vs ls ->
  (exists v, vs = [v] /\ cv_card v = target_card (db w)
             /\ cv_hash v = VStr (fp page))
  \/ (vs = [] /\ py_eq_str (last_known_hash (db w)) (fp page) = true) ->
  target_card (db (run e1 w)) = target_card (db w)
  /\ seeded (db (run e1 w)) = db (run e1 w)
  /\ fetched e2 (db (run e1 w)) = Ok unchanged_answer.
Proof.
  intros Hc2 Hdb Hvs.
  assert (Hseed : seed (db (run e1 w))
                  = (target_card (db w), db (run e1 w))).
  { rewrite Hdb. apply seed_again. }
  assert (Ht : target_card (db (run e1 w)) = target_card (db w)).
  { unfold target_card at 1. by rewrite Hseed. }
  assert (Hs : seeded (db (run e1 w)) = db (run e1 w)).
  { unfold seeded at 1. by rewrite Hseed. }
  split; [done|]. split; [done|].
  unfold fetched, last_known_hash. rewrite Hs, Ht, Hc2, Hdb.
  unfold comparing_fetch.
  destruct Hvs as [(v & -> & Hcard & Hhash)|[-> Heq]].
  - rewrite (latest_version_new _ _ _ _ Hcard), Hhash.
    by rewrite py_eq_str_refl.
  - rewrite latest_version_logs. unfold last_known_hash in Heq.
    by rewrite Heq.
Qed.

(** What a first run over [page] leaves behind when it was recorded as
    SUCCESS or as NO_CHANGE. *)
Lemma first_run_settled fp page e1 w l :
  compares e1 fp page ->
  new_logs e1 w = [l] ->
  cl_status l = "SUCCESS" \/ cl_status l = "NO_CHANGE" ->
  exists vs ls,
    db (run e1 w) = add_rows (seeded (db w)) vs ls
    /\ ((exists v, vs = [v] /\ cv_card v = target_card (db w)
                  /\ cv_hash v = VStr (fp page))
        \/ (vs = [] /\ py_eq_str (last_known_hash (db w)) (fp page) = true)).
Proof.
  intros Hc1 Hl Hst.
  destruct (run_effect e1 w) as [(ex & _ & Hu)|(d & vs & ls & Hd & Hdb & Ht)].
  { unfold new_logs in Hl. destruct Hu as [_ Hu].
    rewrite Hu, drop_all in Hl. discriminate. }
  exists vs, ls. split; [done|].
  destruct (rows_of_run _ _ _ _ Hdb) as [_ Hls]. rewrite Hl in Hls. subst ls.
  unfold fetched in Hd. rewrite Hc1 in Hd.
  apply comparing_fetch_cases in Hd as [[Heq ->]|[Hne ->]].
  - inversion Ht; subst; cbn in Hst; try (destruct Hst; discriminate).
    by right.
  - inversion Ht as [|s Hs Hp|s Hs Hp| |
                     |c h m Hcc Hh Hp He]; subst; cbn in Hst;
      try (destruct Hst; discriminate).
    + exfalso. unfold changed_answer in Hs. rewrite lookup_insert_eq in Hs.
      by injection Hs as <-.
    + left. eexists. split; [done|]. split; [done|]. cbn.
      unfold changed_answer in Hh.
      rewrite !lookup_insert_ne, lookup_singleton_eq in Hh by done.
      by injection Hh as <-.
Qed.

Lemma unchanged_never_success e w :
  fetched e (db w) = Ok unchanged_answer ->
  has_success (new_logs e w) = false.
Proof.
  intros Hf.
  destruct (run_effect e w) as [(ex & _ & Hu)|(d & vs & ls & Hd & Hdb & Ht)].
  { unfold new_logs. destruct Hu as [_ Hu]. by rewrite Hu, drop_all. }
  destruct (rows_of_run _ _ _ _ Hdb) as [_ ->].
  rewrite Hf in Hd. injection Hd as <-.
  inversion Ht; subst; try done.
Qed.

End TwoRuns.

(** ** The handler and the constructors *)

Section Handler.

Lemma main_swallow e w w1 w2 ex :
  main_setup e w = (Ok tt, w1) ->
  main_try e w1 = (Raise ex, w2) ->
  main e w
  = if exn_derives_Exception ex
    then (Ok tt, mkWorld (db w2) (calls w2) (console w2 ++ [fatal_line ex]))
    else (Raise ex, w2).
Proof.
  intros Hs Ht. unfold main, bind. rewrite Hs.
  unfold try_except_Exception. rewrite Ht.
  by destruct (exn_derives_Exception ex).
Qed.

Lemma swallowed e w ex :
  fst (main_setup e w) = Ok tt ->
  raised e w = Some ex ->
  exn_derives_Exception ex = true ->
  result e w = Ok tt /\ last (console (run e w)) = Some (fatal_line ex).
Proof.
  unfold raised, result, run. intros Hs Hr Hx.
  destruct (main_setup e w) as [[[]|ex0] w1] eqn:Hsetup; [|done].
  destruct (main_try e w1) as [[[]|ex1] w2] eqn:Htry; [done|].
  injection Hr as ->.
  rewrite (main_swallow e w w1 w2 ex Hsetup Htry), Hx. cbn.
  split; [done|]. apply last_snoc.
Qed.

Lemma reads_setup e w : reads_succeed e -> fst (main_setup e w) = Ok tt.
Proof. intros Hr. by rewrite (main_setup_ok e w Hr). Qed.

End Handler.

Section HandlerCases.

Lemma handler_cases e w ex :
  fst (main_setup e w) = Ok tt ->
  raised e w = Some ex ->
  if exn_derives_Exception ex
  then result e w = Ok tt
       /\ last (console (run e w)) = Some (fatal_line ex)
  else result e w = Raise ex.
Proof.
  intros Hs Hr. destruct (exn_derives_Exception ex) eqn:Hx.
  - by apply swallowed.
  - unfold raised in Hr. unfold result.
    destruct (main_setup e w) as [[[]|ex0] w1] eqn:Hsetup; [|done].
    destruct (main_try e w1) as [[[]|ex1] w2] eqn:Htry; [done|].
    injection Hr as ->.
    by rewrite (main_swallow e w w1 w2 ex Hsetup Htry), Hx.
Qed.

(** What the caller gets after an exception inside the [try]. *)
Lemma result_of_raised e w ex :
  fst (main_setup e w) = Ok tt ->
  raised e w = Some ex ->
  result e w = if exn_derives_Exception ex then Ok tt else Raise ex.
Proof.
  intros Hs Hr. pose proof (handler_cases e w ex Hs Hr) as H.
  destruct (exn_derives_Exception ex); [by destruct H|done].
Qed.

Lemma raised_no_logs e w ex : raised e w = Some ex -> new_logs e w = [].
Proof.
  intros Hex. pose proof (new_logs_length e w) as Hlen.
  rewrite Hex in Hlen. by destruct (new_logs e w).
Qed.

(** An exception of a constructor is the run's exception, and the
    caller's. *)
Lemma setup_raised e w ex :
  fst (main_setup e w) = Raise ex ->
  raised e w = Some ex /\ result e w = Raise ex.
Proof.
  unfold raised, result, main, bind. intros Hs.
  destruct (main_setup e w) as [[[]|ex0] w1]; cbn in *; [done|].
  by injection Hs as ->.
Qed.

(** Where lines 12-14 stop: at the first constructor that raises. *)
Lemma main_setup_stop e w ex :
  fst (main_setup e w) = Raise ex ->
  exists pre c,
    calls (snd (main_setup e w)) = calls w ++ pre ++ [c]
    /\ (pre ++ [c]) `prefix_of` setup_calls
    /\ fault e c (db w) = Some ex
    /\ Forall (fun c' => fault e c' (db w) = None) pre
    /\ console (snd (main_setup e w)) = console w.
Proof.
  unfold main_setup, DatabaseOps, BankCrawler, RewardsParser, bind, db_call,
    record_call.
  cbn [db calls console fst snd].
  destruct (fault e Call_DatabaseOps (db w)) as [ex1|] eqn:H1.
  { cbn. intros [= ->]. exists [], Call_DatabaseOps.
    repeat split; try done. by eexists. }
  cbn [db calls console fst snd].
  destruct (fault e (Call_BankCrawler true) (db w)) as [ex2|] eqn:H2.
  { cbn. intros [= ->]. exists [Call_DatabaseOps], (Call_BankCrawler true).
    repeat split; try done.
    - by rewrite <- app_assoc.
    - by eexists.
    - by constructor. }
  cbn [db calls console fst snd].
  destruct (fault e Call_RewardsParser (db w)) as [ex3|] eqn:H3; [|done].
  cbn. intros [= ->].
  exists [Call_DatabaseOps; Call_BankCrawler true], Call_RewardsParser.
  repeat split; try done.
  - by rewrite <- !app_assoc.
  - by repeat constructor.
Qed.

End HandlerCases.

(** * The behaviour of a run *)

Import Sample.
Import Sample2.

(** ** Versions and SUCCESS outcomes *)

(** C1, as the code has it.  A run that records SUCCESS has created
    exactly one version, so a card never has more SUCCESS outcomes than
    versions.  While the call that records SUCCESS does not raise, the
    converse holds too: a run creates a version exactly when it records
    SUCCESS, and after any number of runs the versions of a card and its
    SUCCESS outcomes have grown by the same number. *)
Theorem version_iff_success (es : list Env) (w : World) (T : Z) :
  (forall e0 w0,
      has_success (new_logs e0 w0) = true -> exists v, new_versions e0 w0 = [v])
  /\ (count_successes T (db (runs es w)) + count_versions T (db w)
      <= count_versions T (db (runs es w)) + count_successes T (db w))%nat
  /\ (Forall success_log_reliable es ->
      (forall e0 w0, e0 ∈ es ->
         new_versions e0 w0 <> [] <-> has_success (new_logs e0 w0) = true)
      /\ (count_versions T (db (runs es w)) + count_successes T (db w)
          = count_successes T (db (runs es w)) + count_versions T (db w))%nat).
Proof.
  split; [|split].
  - intros e0 w0 Hs. destruct (run_rows e0 w0) as (card & d & _ & _ & Ht).
    by apply effect_success in Ht as [Hv _]; auto.
  - apply successes_le_versions.
  - intros Hall. split; [|by apply successes_eq_versions].
    intros e0 w0 Hin. rewrite Forall_forall in Hall.
    destruct (run_rows e0 w0) as (card & d & _ & _ & Ht).
    apply effect_success in Ht as [Hv Hs]. split; [by auto|].
    intros Hsucc. destruct (Hv Hsucc) as [v ->]. done.
Qed.

Lemma version_iff_success_witness :
  (count_versions 1 (db (runs [env_steady; env_steady'] empty_world)) + 0
   = count_successes 1 (db (runs [env_steady; env_steady'] empty_world)) + 0)%nat.
Proof.
  destruct (version_iff_success [env_steady; env_steady'] empty_world 1)
    as (_ & _ & H).
  apply H. repeat constructor.
Defined.

(** C1 fails as stated: after a first run that saved a version and
    recorded SUCCESS, the page changes and the second run saves its
    version, but the call that records SUCCESS raises.  The second run has
    created a version and recorded no SUCCESS; the card has two versions
    and one SUCCESS outcome. *)
Lemma version_without_success :
  new_versions env_log_fails' (run env_steady empty_world)
  = [mkCardVersion 1 "2026-Q1" (VStr (fingerprint page')) payload (VStr page')]
  /\ has_success (new_logs env_log_fails' (run env_steady empty_world)) = false
  /\ count_versions 1 (db (runs [env_steady; env_log_fails'] empty_world))
     = 2%nat
  /\ count_successes 1 (db (runs [env_steady; env_log_fails'] empty_world))
     = 1%nat.
Proof. vm_compute. auto. Qed.

(** ** One outcome per run *)

(** C2, as the code has it.  A run records exactly one outcome when no
    exception is raised during it, and none when one is raised: by a
    collaborator, or by [main] itself on a mapping that lacks a key.  So
    after successive runs the audit table has grown by the number of runs
    without exception, which is at most the number of runs. *)
Theorem one_outcome_unless_exception (e : Env) (w : World)
    (es : list Env) :
  length (new_logs e w)
  = match raised e w with Some _ => 0%nat | None => 1%nat end
  /\ length (crawl_logs (db (runs es w)))
     = (length (crawl_logs (db w)) + clean_runs es w)%nat
  /\ (clean_runs es w <= length es)%nat.
Proof.
  split; [apply new_logs_length|].
  split; [apply logs_after_runs|apply clean_runs_le].
Qed.

(** C2 fails as stated: when the crawler raises, the handler of line 67
    writes to the process log and the run records no outcome; three such
    runs leave the audit table empty. *)
Lemma crawler_exception_leaves_no_outcome :
  result env_crawler_raises empty_world = Ok tt
  /\ new_logs env_crawler_raises empty_world = []
  /\ length (crawl_logs (db (runs [env_crawler_raises; env_crawler_raises;
                                   env_crawler_raises] empty_world)))
     = 0%nat.
Proof. vm_compute. auto. Qed.

(** ** Failures and exceptions *)

(** C3, as the code has it.  In a run whose constructors and reads
    succeed, a failure that a collaborator reports in its answer (status
    FAILED, or an [error] entry) leads to exactly one write, the FAILED
    or AI_FAILED outcome, which is recorded when that write does not
    raise; the run then returns normally.  An exception is another
    matter.  Raised by a constructor (lines 12-14 are outside the
    [try]), it reaches the caller and no outcome is recorded.  Raised
    inside the [try], it leaves no outcome either; when it derives from
    [Exception] it is caught and only written to the process log, and
    the run returns normally; otherwise it reaches the caller.  Nothing
    else reaches the caller.  A run without exception returns normally
    and records exactly one outcome, of one of the four kinds. *)
Theorem failures_and_exceptions (e : Env) (w : World) :
  (reads_succeed e ->
   forall d, fetched e (db w) = Ok d ->
     (d !! "status" = Some (VStr "FAILED") ->
      let record :=
        Call_log_crawl_result (target_card (db w)) "FAILED"
                              (dict_get d "error") in
      List.filter is_write (new_calls e w) = [record]
      /\ (fault e record (seeded (db w)) = None ->
          new_logs e w
          = [mkCrawlLog (target_card (db w)) "FAILED" (dict_get d "error")]
          /\ result e w = Ok tt))
     /\ (forall c h m D,
           is_changed d c h ->
           on_parse_markdown_to_json e c = Ok m ->
           m !! "error" = Some D ->
           let record :=
             Call_log_crawl_result (target_card (db w)) "AI_FAILED" D in
           List.filter is_write (new_calls e w) = [record]
           /\ (fault e record (seeded (db w)) = None ->
               new_logs e w = [mkCrawlLog (target_card (db w)) "AI_FAILED" D]
               /\ result e w = Ok tt)))
  /\ (forall ex,
        fst (main_setup e w) = Raise ex ->
        result e w = Raise ex /\ new_logs e w = [])
  /\ (forall ex,
        fst (main_setup e w) = Ok tt ->
        raised e w = Some ex ->
        new_logs e w = []
        /\ if exn_derives_Exception ex
           then result e w = Ok tt
                /\ last (console (run e w)) = Some (fatal_line ex)
           else result e w = Raise ex)
  /\ (forall ex,
        result e w = Raise ex ->
        fst (main_setup e w) = Raise ex
        \/ (raised e w = Some ex /\ exn_derives_Exception ex = false))
  /\ (forall ex, raised e w = Some ex -> new_logs e w = [])
  /\ (raised e w = None ->
      result e w = Ok tt
      /\ exists l, new_logs e w = [l] /\ cl_status l ∈ outcome_kinds).
Proof.
  split; [|split; [|split; [|split; [|split]]]].
  - intros Hr d Hd. split.
    + intros Hs. cbv zeta.
      destruct (log_ending e w d "FAILED" (dict_get d "error") [] Hr Hd
                  (failed_ending e w d Hr Hd Hs) eq_refl)
        as (Hw & _ & _ & Hok & _).
      split; [done|]. intros Hf. by destruct (Hok Hf) as (Hl & _ & Hres).
    + intros c h m D Hch Hp HD. cbv zeta.
      destruct (log_ending e w d "AI_FAILED" D [Call_parse_markdown_to_json c]
                  Hr Hd (ai_failed_ending e w d m c h D Hch Hp HD) eq_refl)
        as (Hw & _ & _ & Hok & _).
      split; [done|]. intros Hf. by destruct (Hok Hf) as (Hl & _ & Hres).
  - intros ex Hs. destruct (setup_raised e w ex Hs) as [Hex Hres].
    split; [done|]. by apply (raised_no_logs e w ex).
  - intros ex Hs Hex. split; [by apply (raised_no_logs e w ex)|].
    by apply handler_cases.
  - apply result_raise.
  - apply raised_no_logs.
  - intros Hnone. split; [by apply result_clean|].
    destruct (run_rows e w) as (card & d & _ & _ & Ht).
    apply effect_length in Ht as [Hlen Hall].
    unfold completion in Hlen. rewrite Hnone in Hlen.
    destruct (new_logs e w) as [|l [|l' ls]]; try discriminate.
    exists l. split; [done|]. by inversion Hall.
Qed.

Lemma failures_and_exceptions_witness :
  List.filter is_write (new_calls env_fetch_failed empty_world)
  = [Call_log_crawl_result 1 "FAILED" (VStr "timeout")]
  /\ new_logs env_fetch_failed empty_world
     = [mkCrawlLog 1 "FAILED" (VStr "timeout")]
  /\ result env_fetch_failed empty_world = Ok tt.
Proof.
  destruct (failures_and_exceptions env_fetch_failed empty_world) as (H & _).
  destruct (H (fun _ _ _ => eq_refl) failed_answer eq_refl) as (Hf & _).
  destruct (Hf eq_refl) as (Hw & Hok).
  exact (conj Hw (Hok eq_refl)).
Defined.

(** C3 fails as stated: when the parser raises, the run ends without any
    outcome; and when the crawler cannot be constructed, the exception
    reaches the caller of [main]. *)
Lemma exception_not_converted :
  (result env_parser_raises empty_world = Ok tt
   /\ new_logs env_parser_raises empty_world = [])
  /\ result env_no_browser empty_world
     = Raise (PyExn true "RuntimeError" "browser not installed").
Proof. vm_compute. auto. Qed.

(** ** The two writes of the success path *)

(** C4, as the code has it.  On the success path the version is written
    first and the SUCCESS row second, each by a call of its own and with
    nothing that undoes the first.  When the first call raises, the
    second is not made and nothing is written; when the second raises the
    version stays without an audit row; otherwise both rows are there
    and the run returns normally.  After either exception the run
    returns normally when the exception derives from [Exception], and
    the exception reaches the caller otherwise. *)
Theorem commit_writes (e : Env) (w : World) (d m : pydict) (c h : pyval) :
  reads_succeed e ->
  fetched e (db w) = Ok d ->
  is_changed d c h ->
  on_parse_markdown_to_json e c = Ok m ->
  m !! "error" = None ->
  let card := target_card (db w) in
  let save := Call_save_card_version card "2026-Q1" h m c in
  let record := Call_log_crawl_result card "SUCCESS" VNone in
  let saved := save_card_version_row card "2026-Q1" h m c (seeded (db w)) in
  match fault e save (seeded (db w)) with
  | Some ex =>
      List.filter is_write (new_calls e w) = [save]
      /\ new_versions e w = [] /\ new_logs e w = []
      /\ raised e w = Some ex
      /\ result e w = if exn_derives_Exception ex then Ok tt else Raise ex
  | None =>
      List.filter is_write (new_calls e w) = [save; record]
      /\ new_versions e w = [mkCardVersion card "2026-Q1" h m c]
      /\ match fault e record saved with
         | Some ex =>
             new_logs e w = [] /\ raised e w = Some ex
             /\ result e w
                = if exn_derives_Exception ex then Ok tt else Raise ex
         | None =>
             new_logs e w = [mkCrawlLog card "SUCCESS" VNone]
             /\ raised e w = None /\ result e w = Ok tt
         end
  end.
Proof.
  intros Hr Hd Hch Hp He. cbv zeta.
  pose proof (commit_rows e w d m c h Hr Hd Hch Hp He) as Hc.
  pose proof (reads_setup e w Hr) as Hs.
  cbv zeta in Hc.
  destruct (fault _ _ _) as [ex|].
  { destruct Hc as (Hcalls & Hrun & Hex). rewrite Hcalls.
    rewrite <- (add_rows_nil (seeded (db w))) in Hrun.
    apply rows_of_run in Hrun as [-> ->].
    repeat split; try done. by apply result_of_raised. }
  destruct Hc as [Hcalls Hc]. rewrite Hcalls. split; [done|].
  destruct (fault _ _ _) as [ex|]; destruct Hc as [Hrun Hex].
  - rewrite save_row_add_rows in Hrun.
    apply rows_of_run in Hrun as [-> ->].
    repeat split; try done. by apply result_of_raised.
  - rewrite save_log_add_rows in Hrun.
    apply rows_of_run in Hrun as [-> ->].
    repeat split; try done. by apply result_clean.
Qed.

Lemma sample_reads_succeed : reads_succeed env_steady.
Proof. intros c st _. reflexivity. Defined.

Lemma commit_writes_witness :
  List.filter is_write (new_calls env_steady empty_world)
  = [Call_save_card_version 1 "2026-Q1" (VStr (fingerprint page)) payload
                            (VStr page);
     Call_log_crawl_result 1 "SUCCESS" VNone]
  /\ new_versions env_steady empty_world
     = [mkCardVersion 1 "2026-Q1" (VStr (fingerprint page)) payload
                      (VStr page)]
  /\ new_logs env_steady empty_world = [mkCrawlLog 1 "SUCCESS" VNone]
  /\ raised env_steady empty_world = None
  /\ result env_steady empty_world = Ok tt.
Proof.
  exact (commit_writes env_steady empty_world
           (changed_answer page (fingerprint page)) payload
           (VStr page) (VStr (fingerprint page))
           sample_reads_succeed eq_refl
           (conj eq_refl (conj eq_refl eq_refl)) eq_refl eq_refl).
Defined.

(** C4 fails as stated: the connection is lost after the version was
    saved, and the call that records SUCCESS raises.  The handler of line
    67 swallows the exception and [main] returns as after any other run;
    the database holds the new version and no outcome for it. *)
Lemma partial_commit_reachable :
  new_versions env_log_fails empty_world
  = [mkCardVersion 1 "2026-Q1" (VStr (fingerprint page)) payload (VStr page)]
  /\ new_logs env_log_fails empty_world = []
  /\ result env_log_fails empty_world = Ok tt.
Proof. vm_compute. auto. Qed.

(** ** The four documented endings *)

(** C5, as the code has it: on a card without a prior version (the
    crawler is called with no fingerprint), when the crawler reports a
    change with content [C1] and fingerprint [F1], the parser answers
    [P1] without an [error] entry, and the two writes do not raise, the
    run creates exactly one version, carrying [F1], [P1] and [C1], and
    records exactly one outcome, of kind SUCCESS. *)
Theorem first_version_run (e : Env) (w : World) (d P1 : pydict)
    (C1 F1 : pyval) :
  let card := target_card (db w) in
  let saved := save_card_version_row card "2026-Q1" F1 P1 C1 (seeded (db w)) in
  reads_succeed e ->
  latest_version card (seeded (db w)) = None ->
  on_process_card_url e card target_url VNone = Ok d ->
  is_changed d C1 F1 ->
  on_parse_markdown_to_json e C1 = Ok P1 ->
  P1 !! "error" = None ->
  fault e (Call_save_card_version card "2026-Q1" F1 P1 C1) (seeded (db w))
  = None ->
  fault e (Call_log_crawl_result card "SUCCESS" VNone) saved = None ->
  new_versions e w = [mkCardVersion card "2026-Q1" F1 P1 C1]
  /\ new_logs e w = [mkCrawlLog card "SUCCESS" VNone]
  /\ db (run e w) = log_crawl_result_row card "SUCCESS" VNone saved
  /\ result e w = Ok tt.
Proof.
  cbv zeta. intros Hr Hnone Hd Hch Hp He Hsave Hlog.
  assert (Hf : fetched e (db w) = Ok d).
  { unfold fetched, last_known_hash. by rewrite Hnone. }
  pose proof (commit_rows e w d P1 C1 F1 Hr Hf Hch Hp He) as Hc.
  cbv zeta in Hc. rewrite Hsave, Hlog in Hc. destruct Hc as (_ & Hrun & Hex).
  pose proof Hrun as Hrows. rewrite save_log_add_rows in Hrows.
  apply rows_of_run in Hrows as [-> ->].
  auto using result_clean.
Qed.

Lemma first_version_run_witness :
  new_versions env_steady empty_world
  = [mkCardVersion 1 "2026-Q1" (VStr (fingerprint page)) payload (VStr page)]
  /\ new_logs env_steady empty_world = [mkCrawlLog 1 "SUCCESS" VNone]
  /\ db (run env_steady empty_world)
     = log_crawl_result_row 1 "SUCCESS" VNone
         (save_card_version_row 1 "2026-Q1" (VStr (fingerprint page)) payload
                                (VStr page) (seeded empty_store))
  /\ result env_steady empty_world = Ok tt.
Proof.
  exact (first_version_run env_steady empty_world
           (changed_answer page (fingerprint page)) payload
           (VStr page) (VStr (fingerprint page))
           (fun _ _ _ => eq_refl) eq_refl eq_refl
           (conj eq_refl (conj eq_refl eq_refl)) eq_refl eq_refl
           eq_refl eq_refl).
Defined.

(** C5 fails as stated.  On a card without a prior version and a changed
    page, a payload that the parser delivers with a field named [error]
    creates no version and is recorded as AI_FAILED; and a payload
    without one, whose SUCCESS row the database refuses, creates the
    version and records no outcome. *)
Lemma first_version_not_guaranteed :
  (latest_version (target_card empty_store) (seeded empty_store) = None
   /\ fetched env_error_field empty_store
      = Ok (changed_answer page (fingerprint page))
   /\ on_parse_markdown_to_json env_error_field (VStr page)
      = Ok payload_with_error_field
   /\ new_versions env_error_field empty_world = []
   /\ new_logs env_error_field empty_world
      = [mkCrawlLog 1 "AI_FAILED" (VStr "late payment fee")])
  /\ (fetched env_log_fails empty_store
      = Ok (changed_answer page (fingerprint page))
      /\ on_parse_markdown_to_json env_log_fails (VStr page) = Ok payload
      /\ new_versions env_log_fails empty_world
         = [mkCardVersion 1 "2026-Q1" (VStr (fingerprint page)) payload
                          (VStr page)]
      /\ new_logs env_log_fails empty_world = []).
Proof. vm_compute. auto 10. Qed.

(** C6, as the code has it: in a run that gets NO_CHANGE from the
    crawler, the only write asked of the database is the NO_CHANGE
    outcome, once; the parser is not called and no version is created.
    When that write does not raise, the audit table gains exactly the
    NO_CHANGE row and the run returns normally.  When it raises, no
    outcome is recorded at all; the run still returns normally if the
    exception derives from [Exception], and the exception reaches the
    caller otherwise. *)
Theorem unchanged_run (e : Env) (w : World) (d : pydict) :
  reads_succeed e ->
  fetched e (db w) = Ok d ->
  d !! "status" = Some (VStr "NO_CHANGE") ->
  let record :=
    Call_log_crawl_result (target_card (db w)) "NO_CHANGE" VNone in
  List.filter is_write (new_calls e w) = [record]
  /\ List.filter is_parse_call (new_calls e w) = []
  /\ new_versions e w = []
  /\ (fault e record (seeded (db w)) = None ->
      new_logs e w = [mkCrawlLog (target_card (db w)) "NO_CHANGE" VNone]
      /\ result e w = Ok tt)
  /\ (forall ex,
        fault e record (seeded (db w)) = Some ex ->
        new_logs e w = []
        /\ raised e w = Some ex
        /\ result e w = if exn_derives_Exception ex then Ok tt else Raise ex).
Proof.
  intros Hr Hd Hs. cbv zeta.
  destruct (log_ending e w d "NO_CHANGE" VNone [] Hr Hd
              (no_change_ending e w d Hr Hd Hs) eq_refl)
    as (Hw & Hp & Hv & Hok & Hko).
  split; [done|]. split; [done|]. split; [done|]. split.
  - intros Hf. by destruct (Hok Hf) as (Hl & _ & Hres).
  - intros ex Hf. destruct (Hko ex Hf) as [Hl Hex].
    auto using result_of_raised, reads_setup.
Qed.

Lemma unchanged_run_witness :
  new_logs env_unchanged empty_world = [mkCrawlLog 1 "NO_CHANGE" VNone]
  /\ result env_unchanged empty_world = Ok tt.
Proof.
  destruct (unchanged_run env_unchanged empty_world unchanged_answer
              (fun _ _ _ => eq_refl) eq_refl eq_refl) as (_ & _ & _ & H & _).
  exact (H eq_refl).
Defined.

(** C6 fails as stated: the crawler answers NO_CHANGE and the database
    refuses the audit row; the handler of line 67 swallows the exception
    and the run ends, normally, without any outcome. *)
Lemma unchanged_not_recorded :
  fetched env_unchanged_log_down empty_store = Ok unchanged_answer
  /\ unchanged_answer !! "status" = Some (VStr "NO_CHANGE")
  /\ new_logs env_unchanged_log_down empty_world = []
  /\ result env_unchanged_log_down empty_world = Ok tt.
Proof. vm_compute. auto. Qed.

(** C7, as the code has it: in a run that gets FAILED with detail [D]
    from the crawler, the only write asked of the database is the FAILED
    outcome carrying [D], once; the parser is not called and no version
    is created.  When that write does not raise, the audit table gains
    exactly the FAILED row carrying [D] and the run returns normally.
    When it raises, no outcome is recorded at all; the run still returns
    normally if the exception derives from [Exception], and the
    exception reaches the caller otherwise. *)
Theorem fetch_failed_run (e : Env) (w : World) (d : pydict) (D : pyval) :
  reads_succeed e ->
  fetched e (db w) = Ok d ->
  d !! "status" = Some (VStr "FAILED") ->
  d !! "error" = Some D ->
  let record := Call_log_crawl_result (target_card (db w)) "FAILED" D in
  List.filter is_write (new_calls e w) = [record]
  /\ List.filter is_parse_call (new_calls e w) = []
  /\ new_versions e w = []
  /\ (fault e record (seeded (db w)) = None ->
      new_logs e w = [mkCrawlLog (target_card (db w)) "FAILED" D]
      /\ result e w = Ok tt)
  /\ (forall ex,
        fault e record (seeded (db w)) = Some ex ->
        new_logs e w = []
        /\ raised e w = Some ex
        /\ result e w = if exn_derives_Exception ex then Ok tt else Raise ex).
Proof.
  intros Hr Hd Hs HD. cbv zeta.
  destruct (log_ending e w d "FAILED" (dict_get d "error") [] Hr Hd
              (failed_ending e w d Hr Hd Hs) eq_refl)
    as (Hw & Hp & Hv & Hok & Hko).
  unfold dict_get in Hw, Hok, Hko. rewrite HD in Hw, Hok, Hko.
  cbn [default] in Hw, Hok, Hko.
  split; [done|]. split; [done|]. split; [done|]. split.
  - intros Hf. by destruct (Hok Hf) as (Hl & _ & Hres).
  - intros ex Hf. destruct (Hko ex Hf) as [Hl Hex].
    auto using result_of_raised, reads_setup.
Qed.

Lemma fetch_failed_run_witness :
  new_logs env_fetch_failed empty_world
  = [mkCrawlLog 1 "FAILED" (VStr "timeout")]
  /\ result env_fetch_failed empty_world = Ok tt.
Proof.
  destruct (fetch_failed_run env_fetch_failed empty_world failed_answer
              (VStr "timeout") (fun _ _ _ => eq_refl) eq_refl eq_refl eq_refl)
    as (_ & _ & _ & H & _).
  exact (H eq_refl).
Defined.

(** C7 fails as stated: the crawler answers FAILED with detail
    "timeout" and the database refuses the audit row; the run ends,
    normally, without any outcome. *)
Lemma fetch_failure_not_recorded :
  fetched env_fetch_failed_log_down empty_store = Ok failed_answer
  /\ failed_answer !! "status" = Some (VStr "FAILED")
  /\ failed_answer !! "error" = Some (VStr "timeout")
  /\ new_logs env_fetch_failed_log_down empty_world = []
  /\ result env_fetch_failed_log_down empty_world = Ok tt.
Proof. vm_compute. auto 10. Qed.

(** C8, as the code has it: in a run that gets a change with content [c]
    from the crawler and an [error] entry [D] from the parser, the calls
    are those of the constructors and of lines 19-31, the parser's with
    [c], and the write of the AI_FAILED outcome carrying [D]: the
    content is handed to the parser and to nothing else, and no version
    is created.  When the write does not raise, the database is the one
    lines 19-20 leave (bank and card in place, created if they were
    missing) with exactly that audit row appended, and the run returns
    normally: of the content, the database holds what the parser
    repeated in [D].  When the write raises, no outcome is recorded and
    the database is the one lines 19-20 leave; the run still returns
    normally if the exception derives from [Exception], and the
    exception reaches the caller otherwise. *)
Theorem extraction_failed_run (e : Env) (w : World) (d m : pydict)
    (c h D : pyval) :
  reads_succeed e ->
  fetched e (db w) = Ok d ->
  is_changed d c h ->
  on_parse_markdown_to_json e c = Ok m ->
  m !! "error" = Some D ->
  let card := target_card (db w) in
  let record := Call_log_crawl_result card "AI_FAILED" D in
  new_calls e w
  = setup_calls ++ fetch_calls (db w)
      ++ [Call_parse_markdown_to_json c; record]
  /\ List.filter is_write (new_calls e w) = [record]
  /\ new_versions e w = []
  /\ (fault e record (seeded (db w)) = None ->
      new_logs e w = [mkCrawlLog card "AI_FAILED" D]
      /\ db (run e w) = log_crawl_result_row card "AI_FAILED" D (seeded (db w))
      /\ result e w = Ok tt)
  /\ (forall ex,
        fault e record (seeded (db w)) = Some ex ->
        new_logs e w = []
        /\ db (run e w) = seeded (db w)
        /\ raised e w = Some ex
        /\ result e w = if exn_derives_Exception ex then Ok tt else Raise ex).
Proof.
  intros Hr Hd Hch Hp HD. cbv zeta.
  pose proof (ai_failed_ending e w d m c h D Hch Hp HD) as Hend.
  destruct (log_ending e w d "AI_FAILED" D [Call_parse_markdown_to_json c]
              Hr Hd Hend eq_refl)
    as (Hw & _ & Hv & Hok & Hko).
  destruct (log_ending_calls e w d "AI_FAILED" D
              [Call_parse_markdown_to_json c] Hr Hd Hend)
    as (Hcalls & Hdb).
  split; [done|]. split; [done|]. split; [done|]. split; [done|].
  intros ex Hf. destruct (Hko ex Hf) as [Hl Hex].
  split; [done|]. split; [by apply (Hdb ex)|]. split; [done|].
  apply result_of_raised; [by apply reads_setup|done].
Qed.

Lemma extraction_failed_run_witness :
  new_logs env_parse_failed empty_world
  = [mkCrawlLog 1 "AI_FAILED" (VStr "malformed response")]
  /\ db (run env_parse_failed empty_world)
     = log_crawl_result_row 1 "AI_FAILED" (VStr "malformed response")
                            (seeded empty_store)
  /\ result env_parse_failed empty_world = Ok tt.
Proof.
  destruct (extraction_failed_run env_parse_failed empty_world
              (changed_answer page (fingerprint page)) error_answer
              (VStr page) (VStr (fingerprint page))
              (VStr "malformed response")
              (fun _ _ _ => eq_refl) eq_refl
              (conj eq_refl (conj eq_refl eq_refl)) eq_refl eq_refl)
    as (_ & _ & _ & H & _).
  exact (H eq_refl).
Defined.

(** C8 fails as stated, in three ways.  The database refuses the audit
    row: the run ends, normally, without any outcome.  The run starts on
    an empty database: besides the outcome, it leaves the bank and the
    card that lines 19-20 created.  The parser quotes the text it could
    not parse in its [error] entry: the fetched content is stored, as
    the detail of the AI_FAILED row. *)
Lemma extraction_failure_store :
  (fetched env_parse_failed_log_down empty_store
   = Ok (changed_answer page (fingerprint page))
   /\ on_parse_markdown_to_json env_parse_failed_log_down (VStr page)
      = Ok error_answer
   /\ new_logs env_parse_failed_log_down empty_world = []
   /\ result env_parse_failed_log_down empty_world = Ok tt)
  /\ (banks (db empty_world) = [] /\ cards (db empty_world) = []
      /\ length (banks (db (run env_parse_failed empty_world))) = 1%nat
      /\ length (cards (db (run env_parse_failed empty_world))) = 1%nat)
  /\ (fetched env_echo empty_store
      = Ok (changed_answer page (fingerprint page))
      /\ new_logs env_echo empty_world
         = [mkCrawlLog 1 "AI_FAILED" (VStr page)]).
Proof. vm_compute. auto 10. Qed.

(** ** Two runs over an unchanged page *)

(** C9, as the code has it: over an unchanged page, with a crawler that
    compares fingerprints, two successive runs are never both recorded as
    SUCCESS; and when the first run was recorded as SUCCESS or NO_CHANGE,
    a second run whose database calls succeed is recorded as NO_CHANGE. *)
Theorem second_run_unchanged (fp : string -> string) (pg : string)
    (e1 e2 : Env) (w : World) :
  compares e1 fp pg ->
  compares e2 fp pg ->
  (has_success (new_logs e1 w) = true ->
   has_success (new_logs e2 (run e1 w)) = false)
  /\ (no_fault e2 ->
      forall l,
        new_logs e1 w = [l] ->
        cl_status l = "SUCCESS" \/ cl_status l = "NO_CHANGE" ->
        new_logs e2 (run e1 w)
        = [mkCrawlLog (target_card (db w)) "NO_CHANGE" VNone]).
Proof.
  intros Hc1 Hc2. split.
  - intros Hs. apply success_row in Hs as (l & Hl & Hst).
    destruct (first_run_settled _ _ _ _ _ Hc1 Hl (or_introl Hst))
      as (vs & ls & Hdb & Hvs).
    destruct (second_fetch _ _ _ _ _ _ _ Hc2 Hdb Hvs) as (_ & _ & Hf).
    by apply unchanged_never_success.
  - intros Hnf l Hl Hst. pose proof (no_fault_reads e2 Hnf) as Hr.
    destruct (first_run_settled _ _ _ _ _ Hc1 Hl Hst) as (vs & ls & Hdb & Hvs).
    destruct (second_fetch _ _ _ _ _ _ _ Hc2 Hdb Hvs) as (Ht & Hsd & Hf).
    destruct (log_ending e2 (run e1 w) unchanged_answer "NO_CHANGE" VNone []
                Hr Hf (no_change_ending e2 _ _ Hr Hf eq_refl) eq_refl)
      as (_ & _ & _ & Hok & _).
    destruct (Hok (Hnf _ _)) as (Hlogs & _ & _). by rewrite Hlogs, Ht.
Qed.

Lemma second_run_unchanged_witness :
  new_logs env_steady (run env_steady empty_world)
  = [mkCrawlLog 1 "NO_CHANGE" VNone].
Proof.
  destruct (second_run_unchanged fingerprint page env_steady env_steady
              empty_world (fun _ _ _ => eq_refl) (fun _ _ _ => eq_refl))
    as [_ H].
  apply (H (fun _ _ => eq_refl) (mkCrawlLog 1 "SUCCESS" VNone)).
  - reflexivity.
  - left. reflexivity.
Defined.

(** C9 fails as stated: when the parser answers with an [error] entry,
    the first run ends as AI_FAILED and saves nothing, so the second run
    over the same page finds it changed again and ends as AI_FAILED too,
    not as NO_CHANGE. *)
Lemma second_run_after_failed_extraction :
  compares env_parse_failed fingerprint page
  /\ new_logs env_parse_failed empty_world
     = [mkCrawlLog 1 "AI_FAILED" (VStr "malformed response")]
  /\ new_logs env_parse_failed (run env_parse_failed empty_world)
     = [mkCrawlLog 1 "AI_FAILED" (VStr "malformed response")].
Proof. split; [by intros ? ? ?|]. vm_compute. auto. Qed.

(** ** The [error] key *)

(** C10: on a changed page for which the parser returns the mapping [m],
    the run asks the database to record AI_FAILED, and nothing else,
    exactly when [m] has an [error] entry; then no version is created,
    whatever else [m] holds.  When the database calls succeed, the
    outcome in the audit table is AI_FAILED exactly in that case. *)
Theorem error_key_decides (e : Env) (w : World) (d m : pydict)
    (c h : pyval) :
  reads_succeed e ->
  fetched e (db w) = Ok d ->
  is_changed d c h ->
  on_parse_markdown_to_json e c = Ok m ->
  let card := target_card (db w) in
  (is_Some (m !! "error")
   <-> exists D,
       List.filter is_write (new_calls e w)
       = [Call_log_crawl_result card "AI_FAILED" D])
  /\ (is_Some (m !! "error") -> new_versions e w = [])
  /\ (no_fault e ->
      (is_Some (m !! "error")
       <-> exists D, new_logs e w = [mkCrawlLog card "AI_FAILED" D])).
Proof.
  intros Hr Hd Hch Hp. cbv zeta.
  destruct (m !! "error") as [D|] eqn:HD.
  - destruct (log_ending e w d "AI_FAILED" D [Call_parse_markdown_to_json c]
                Hr Hd (ai_failed_ending e w d m c h D Hch Hp HD) eq_refl)
      as (Hw & _ & Hv & Hok & _).
    split; [|split]; [|done|].
    + split; [by eauto|by eauto].
    + intros Hnf. destruct (Hok (Hnf _ _)) as (Hl & _ & _).
      split; [by eauto|by eauto].
  - pose proof (commit_rows e w d m c h Hr Hd Hch Hp HD) as Hc.
    cbv zeta in Hc.
    split; [|split].
    + split; [by intros [? ?]|]. intros [D HDw]. exfalso.
      destruct (fault _ _ _).
      * destruct Hc as (Hcalls & _). rewrite Hcalls in HDw. discriminate.
      * destruct Hc as (Hcalls & _). rewrite Hcalls in HDw. discriminate.
    + by intros [? ?].
    + intros Hnf. rewrite !Hnf in Hc. destruct Hc as (_ & Hrun & _).
      rewrite save_log_add_rows in Hrun. apply rows_of_run in Hrun as [_ Hl].
      split; [by intros [? ?]|]. intros [D HDl]. rewrite Hl in HDl.
      discriminate.
Qed.

Lemma error_key_decides_witness :
  (exists D,
      List.filter is_write (new_calls env_error_field empty_world)
      = [Call_log_crawl_result 1 "AI_FAILED" D])
  /\ new_versions env_error_field empty_world = [].
Proof.
  destruct (error_key_decides env_error_field empty_world
              (changed_answer page (fingerprint page))
              payload_with_error_field (VStr page) (VStr (fingerprint page))
              (fun _ _ _ => eq_refl) eq_refl
              (conj eq_refl (conj eq_refl eq_refl)) eq_refl)
    as (Hiff & Hnone & _).
  split.
  - apply Hiff. by eexists.
  - apply Hnone. by eexists.
Defined.

(** * More of [main]: calls, missing keys, the handler, the lineage *)

Import Sample2.

(** ** The calls of every run *)

Section Calls.

Ltac tail_of l := exists l; split; [cbn; by rewrite ?app_nil_r, <- ?app_assoc |].

Lemma classify_calls e card d w :
  exists tail,
    calls (snd (classify e card d w)) = calls w ++ tail
    /\ tail_calls e card d tail.
Proof.
  unfold classify.
  rewrite bind_subscript.
  destruct (d !! "status") as [status|] eqn:Hstatus;
    [|tail_of (@nil Call); constructor].
  destruct (py_eq_str status "NO_CHANGE") eqn:Hnc.
  { rewrite bind_logger, log_crawl_result_eq.
    destruct (fault _ _ _);
      (tail_of [Call_log_crawl_result card "NO_CHANGE" VNone]; constructor). }
  rewrite bind_subscript, Hstatus.
  destruct (py_eq_str status "FAILED") eqn:Hf.
  { rewrite bind_logger, log_crawl_result_eq.
    destruct (fault _ _ _);
      (tail_of [Call_log_crawl_result card "FAILED" (dict_get d "error")];
       constructor). }
  rewrite bind_logger, bind_subscript.
  destruct (d !! "content") as [c|] eqn:Hc; [|tail_of (@nil Call); constructor].
  rewrite bind_subscript.
  destruct (d !! "hash") as [h|] eqn:Hh; [|tail_of (@nil Call); constructor].
  unfold parse_markdown_to_json. rewrite bind_ext_call.
  destruct (on_parse_markdown_to_json e c) as [m|ex] eqn:Hp;
    [|tail_of [Call_parse_markdown_to_json c]; by constructor].
  unfold py_in.
  destruct (m !! "error") as [err|] eqn:Herr.
  { rewrite bind_subscript, Herr, bind_logger, bind_subscript, Herr.
    rewrite log_crawl_result_eq.
    destruct (fault _ _ _);
      (tail_of [Call_parse_markdown_to_json c;
                Call_log_crawl_result card "AI_FAILED" err];
       by econstructor). }
  rewrite bind_logger. unfold save_card_version. rewrite bind_db_call.
  destruct (fault _ _ _).
  { tail_of [Call_parse_markdown_to_json c;
             Call_save_card_version card "2026-Q1" h m c].
    by constructor. }
  cbn [fst snd]. unfold log_crawl_result. rewrite bind_db_call.
  destruct (fault _ _ _);
    (tail_of [Call_parse_markdown_to_json c;
              Call_save_card_version card "2026-Q1" h m c;
              Call_log_crawl_result card "SUCCESS" VNone];
     by constructor).
Qed.

(** The calls of the [try] block, and whether it got to lines 33-65. *)
Lemma main_try_calls e w :
  (exists pre ex,
      calls (snd (main_try e w)) = calls w ++ pre
      /\ pre `prefix_of` fetch_calls (db w)
      /\ fst (main_try e w) = Raise ex)
  \/ (exists d tail,
        fetched e (db w) = Ok d
        /\ calls (snd (main_try e w)) = calls w ++ fetch_calls (db w) ++ tail
        /\ tail_calls e (target_card (db w)) d tail).
Proof.
  rewrite main_try_classify.
  unfold get_or_create_bank. rewrite bind_db_call.
  destruct (fault _ _ _) as [ex|].
  { left. exists [Call_get_or_create_bank bank_name_0 bank_code_0], ex.
    split; [done|]. split; [|done]. by eexists. }
  unfold get_or_create_card. rewrite bind_db_call. cbn [db calls console].
  destruct (fault _ _ _) as [ex|].
  { left. eexists [_; _], ex.
    split; [cbn; by rewrite <- app_assoc|]. split; [|done]. by eexists. }
  rewrite bind_logger. cbn [db calls console].
  unfold get_latest_card_version. rewrite bind_db_call. cbn [db calls console].
  destruct (fault _ _ _) as [ex|].
  { left. eexists [_; _; _], ex.
    split; [cbn; by rewrite <- !app_assoc|]. split; [|done]. by eexists. }
  cbn [fst snd]. rewrite bind_last_hash_of_row.
  unfold process_card_url. rewrite bind_ext_call.
  destruct (on_process_card_url _ _ _ _) as [d|ex] eqn:Hd.
  2:{ left. exists (fetch_calls (db w)), ex.
      split; [cbn; by rewrite <- !app_assoc|]. split; [|done]. done. }
  right.
  match goal with |- context [classify e ?card d ?w2] =>
    destruct (classify_calls e card d w2) as (tail & Hc & Ht)
  end.
  exists d, tail. split; [exact Hd|]. split; [|exact Ht].
  rewrite Hc. cbn. by rewrite <- !app_assoc.
Qed.

Lemma main_setup_calls e w :
  (exists ex pre,
      fst (main_setup e w) = Raise ex
      /\ calls (snd (main_setup e w)) = calls w ++ pre
      /\ pre `prefix_of` setup_calls
      /\ console (snd (main_setup e w)) = console w)
  \/ main_setup e w
     = (Ok tt, mkWorld (db w) (calls w ++ setup_calls) (console w)).
Proof.
  unfold main_setup, DatabaseOps, BankCrawler, RewardsParser.
  rewrite bind_db_call. destruct (fault _ _ _) as [ex|].
  { left. exists ex, [Call_DatabaseOps]. repeat split; by eexists. }
  rewrite bind_db_call. destruct (fault _ _ _) as [ex|].
  { left. exists ex, [Call_DatabaseOps; Call_BankCrawler true].
    cbn. rewrite <- app_assoc. repeat split; by eexists. }
  rewrite db_call_eq. destruct (fault _ _ _) as [ex|]; cbn.
  { left. exists ex, setup_calls.
    cbn. rewrite <- !app_assoc. repeat split; done. }
  right. unfold setup_calls. by rewrite <- !app_assoc.
Qed.

Lemma main_except_calls ex w :
  calls (snd (main_except ex w)) = calls w
  /\ db (snd (main_except ex w)) = db w.
Proof. done. Qed.

Lemma run_calls_shape e w : run_calls e w (new_calls e w).
Proof.
  unfold run_calls, new_calls, raised, run, main, bind.
  destruct (main_setup_calls e w) as [(ex & pre & Hr & Hc & Hp & _)|Heq].
  { left. destruct (main_setup e w) as [[[]|ex'] w1]; cbn in *; [done|].
    rewrite Hc, drop_app_length. split; [|done].
    destruct Hp as [k Hk]. exists (k ++ fetch_calls (db w)).
    change (setup_calls ++ fetch_calls (db w)
            = pre ++ k ++ fetch_calls (db w)).
    by rewrite Hk, <- app_assoc. }
  rewrite Heq. unfold try_except_Exception.
  set (w1 := mkWorld (db w) (calls w ++ setup_calls) (console w)).
  destruct (main_try_calls e w1) as [(pre & ex & Hc & Hp & Hr)|(d & tail & Hd & Hc & Ht)].
  - left. destruct (main_try e w1) as [[[]|ex'] w2]; cbn in *; [done|].
    split; [|done].
    assert (Hcalls : calls (if exn_derives_Exception ex'
                            then main_except ex' w2 else (Raise ex', w2)).2
                     = calls w ++ setup_calls ++ pre).
    { destruct (exn_derives_Exception ex'); cbn; by rewrite Hc, <- app_assoc. }
    rewrite Hcalls, drop_app_length.
    destruct Hp as [k Hk]. exists k.
    change (setup_calls ++ fetch_calls (db w) = (setup_calls ++ pre) ++ k).
    by rewrite Hk, <- app_assoc.
  - right. exists d, tail. split; [done|]. split; [|done].
    assert (Hcalls : calls
              (let (r, w') := main_try e w1 in
               match r with
               | Ok a => (Ok a, w')
               | Raise ex =>
                   if exn_derives_Exception ex then main_except ex w'
                   else (Raise ex, w')
               end).2
            = calls w ++ setup_calls ++ fetch_calls (db w) ++ tail).
    { destruct (main_try e w1) as [[[]|ex'] w2]; cbn in *;
        [|destruct (exn_derives_Exception ex'); cbn];
        by rewrite Hc, <- app_assoc. }
    by rewrite Hcalls, drop_app_length.
Qed.

End Calls.

Section CallFacts.

Lemma filter_prefix_length {A} (f : A -> bool) (l l' : list A) :
  l `prefix_of` l' ->
  (length (List.filter f l) <= length (List.filter f l'))%nat.
Proof. intros [k ->]. rewrite List.filter_app, length_app. lia. Qed.

Lemma not_in_fetch_calls c st :
  is_write c = true \/ is_parse_call c = true ->
  c ∉ setup_calls ++ fetch_calls st.
Proof.
  intros Hc Hin. unfold setup_calls, fetch_calls in Hin. cbn in Hin.
  repeat (apply elem_of_cons in Hin as [->|Hin];
          [by destruct Hc as [Hc|Hc]; cbn in Hc|]).
  by apply elem_of_nil in Hin.
Qed.

End CallFacts.

(** X1: whatever the collaborators do, a run calls the crawler at most
    once and the parser at most once, and asks the database for at most
    one version write and at most one outcome write: nothing is retried
    within a run. *)
Theorem calls_at_most_once (e : Env) (w : World) :
  (length (List.filter is_crawl_call (new_calls e w)) <= 1)%nat
  /\ (length (List.filter is_parse_call (new_calls e w)) <= 1)%nat
  /\ (length (List.filter is_save_call (new_calls e w)) <= 1)%nat
  /\ (length (List.filter is_log_call (new_calls e w)) <= 1)%nat.
Proof.
  destruct (run_calls_shape e w) as [[Hp _]|(d & tail & _ & -> & Ht)].
  - repeat split;
      (etrans; [apply filter_prefix_length, Hp|]); cbn; lia.
  - rewrite !List.filter_app. cbn.
    destruct Ht; cbn; lia.
Qed.

(** X2: a version write is requested only with what the collaborators
    returned in this very run: the card of the run, the label "2026-Q1",
    the [hash] and [content] entries of the crawler's answer, and the
    parser's answer to that content, which has no [error] entry. *)
Theorem save_call_provenance (e : Env) (w : World) (card : Z)
    (name : string) (h : pyval) (m : pydict) (c : pyval) :
  Call_save_card_version card name h m c ∈ new_calls e w ->
  card = target_card (db w)
  /\ name = "2026-Q1"
  /\ exists d,
      fetched e (db w) = Ok d
      /\ d !! "content" = Some c /\ d !! "hash" = Some h
      /\ on_parse_markdown_to_json e c = Ok m
      /\ m !! "error" = None.
Proof.
  intros Hin.
  destruct (run_calls_shape e w) as [[Hp _]|(d & tail & Hd & Heq & Ht)].
  - exfalso.
    apply (not_in_fetch_calls (Call_save_card_version card name h m c)
             (db w)); [by left|].
    destruct Hp as [k ->]. apply elem_of_app. by left.
  - rewrite Heq, app_assoc in Hin. apply elem_of_app in Hin as [Hin|Hin].
    { exfalso.
      by apply (not_in_fetch_calls (Call_save_card_version card name h m c)
                  (db w)); [left|]. }
    destruct Ht;
      repeat (apply elem_of_cons in Hin as [Hin|Hin]; try discriminate);
      try (by apply elem_of_nil in Hin);
      injection Hin as -> -> -> -> ->; eauto 10.
Qed.

Lemma save_call_provenance_witness :
  exists d,
    fetched env_steady (db empty_world) = Ok d
    /\ d !! "content" = Some (VStr page)
    /\ d !! "hash" = Some (VStr (fingerprint page))
    /\ on_parse_markdown_to_json env_steady (VStr page) = Ok payload
    /\ payload !! "error" = None.
Proof.
  apply (save_call_provenance env_steady empty_world 1 "2026-Q1"
           (VStr (fingerprint page)) payload (VStr page)).
  vm_compute. do 8 apply list_elem_of_further. apply list_elem_of_here.
Defined.

(** ** Exceptions: the constructors and the handler *)

(** X3: an exception raised inside the [try] reaches the caller exactly
    when it does not derive from [Exception]; otherwise [main] returns
    normally and the last line of the process log is "ETL fatal error"
    with [str(e)]. *)
Theorem handler_reports (e : Env) (w : World) (ex : pyexn) :
  fst (main_setup e w) = Ok tt ->
  raised e w = Some ex ->
  if exn_derives_Exception ex
  then result e w = Ok tt
       /\ last (console (run e w)) = Some (fatal_line ex)
  else result e w = Raise ex.
Proof. intros Hs Hr. by apply handler_cases. Qed.

Lemma handler_reports_witness :
  result env_cancelled empty_world = Raise cancelled.
Proof.
  exact (handler_reports env_cancelled empty_world cancelled eq_refl eq_refl).
Defined.

(** X4: when one of the three constructors of lines 12-14 raises, the
    exception reaches the caller whatever its class; the calls of the
    run are the constructors before it, which did not raise, and the one
    that raised, in the order of the source, so that the constructors
    after it and the whole [try] block are not run; and neither the
    database nor the process log is written. *)
Theorem constructor_failure (e : Env) (w : World) (ex : pyexn) :
  fst (main_setup e w) = Raise ex ->
  result e w = Raise ex
  /\ (exists pre c,
        new_calls e w = pre ++ [c]
        /\ (pre ++ [c]) `prefix_of` setup_calls
        /\ fault e c (db w) = Some ex
        /\ Forall (fun c' => fault e c' (db w) = None) pre)
  /\ db (run e w) = db w
  /\ console (run e w) = console w.
Proof.
  intros Hs. pose proof (main_setup_db e w) as Hdb.
  destruct (main_setup_stop e w ex Hs) as (pre & c & Hc & Hp & Hf & Hall & Hcon).
  unfold result, new_calls, run, main, bind.
  destruct (main_setup e w) as [[[]|ex0] w1]; cbn in *; [done|].
  injection Hs as ->. rewrite Hc, drop_app_length.
  split; [done|]. split; [|done]. by exists pre, c.
Qed.

Lemma constructor_failure_witness :
  result env_no_browser empty_world
  = Raise (PyExn true "RuntimeError" "browser not installed")
  /\ (exists pre c,
        new_calls env_no_browser empty_world = pre ++ [c]
        /\ (pre ++ [c]) `prefix_of` setup_calls
        /\ fault env_no_browser c (db empty_world)
           = Some (PyExn true "RuntimeError" "browser not installed")
        /\ Forall (fun c' => fault env_no_browser c' (db empty_world) = None)
                  pre)
  /\ db (run env_no_browser empty_world) = db empty_world
  /\ console (run env_no_browser empty_world) = console empty_world.
Proof.
  exact (constructor_failure env_no_browser empty_world
           (PyExn true "RuntimeError" "browser not installed") eq_refl).
Defined.

(** ** Answers with missing or unknown entries *)

Section Keys.

Lemma classify_no_status e card d w :
  d !! "status" = None ->
  classify e card d w = (Raise (KeyError "status"), w).
Proof. intros Hs. unfold classify. by rewrite bind_subscript, Hs. Qed.

(** Lines 43-65 are the branch of every status but the two that lines
    33 and 38 test for. *)
Lemma classify_else e card d s w :
  d !! "status" = Some s ->
  py_eq_str s "NO_CHANGE" = false ->
  py_eq_str s "FAILED" = false ->
  classify e card d w
  = (markdown_content <- subscript d "content" ;;
     current_hash <- subscript d "hash" ;;
     rewards_json <- parse_markdown_to_json e markdown_content ;;
     if py_in "error" rewards_json then
       err <- subscript rewards_json "error" ;;
       logger ERROR "AI Parse failed: {rewards_json['error']}" [err] ;;
       err <- subscript rewards_json "error" ;;
       log_crawl_result e card "AI_FAILED" err
     else
       logger INFO "AI Parse success. Saving to DB..." [] ;;
       save_card_version e card "2026-Q1" current_hash rewards_json
                         markdown_content ;;
       log_crawl_result e card "SUCCESS" VNone ;;
       logger INFO "ETL process completed successfully." [])
      (mkWorld (db w) (calls w)
               (console w ++
                  [mkLogLine INFO "Content changed. Calling AI Parser..." []])).
Proof.
  intros Hs Hn Hf. unfold classify.
  rewrite bind_subscript, Hs, Hn, bind_subscript, Hs, Hf.
  by rewrite bind_logger.
Qed.

Lemma classify_as_changed e card d s c h w :
  d !! "status" = Some s ->
  py_eq_str s "NO_CHANGE" = false ->
  py_eq_str s "FAILED" = false ->
  d !! "content" = Some c ->
  d !! "hash" = Some h ->
  classify e card d w
  = classify e card (<[ "status" := VStr "CHANGED" ]> d) w
  /\ is_changed (<[ "status" := VStr "CHANGED" ]> d) c h.
Proof.
  intros Hs Hn Hf Hc Hh.
  assert (Hch : is_changed (<[ "status" := VStr "CHANGED" ]> d) c h).
  { repeat split; [apply lookup_insert_eq| |];
      by rewrite lookup_insert_ne. }
  split; [|done].
  rewrite (classify_else e card d s w Hs Hn Hf).
  rewrite (classify_changed e card _ c h w Hch).
  by rewrite bind_subscript, Hc, bind_subscript, Hh.
Qed.

Lemma classify_missing_key e card d s w :
  d !! "status" = Some s ->
  py_eq_str s "NO_CHANGE" = false ->
  py_eq_str s "FAILED" = false ->
  d !! "content" = None \/ d !! "hash" = None ->
  exists k w',
    (k = "content" \/ k = "hash") /\ d !! k = None
    /\ classify e card d w = (Raise (KeyError k), w')
    /\ db w' = db w /\ calls w' = calls w.
Proof.
  intros Hs Hn Hf Hmiss. rewrite (classify_else e card d s w Hs Hn Hf).
  rewrite bind_subscript.
  destruct (d !! "content") as [c|] eqn:Hc.
  - destruct Hmiss as [|Hh]; [done|].
    exists "hash". eexists. rewrite bind_subscript, Hh. eauto 10.
  - exists "content". eexists. eauto 10.
Qed.

End Keys.

(** X5: when the crawler's answer has no [status] entry, line 33 raises
    [KeyError] and the handler swallows it: the run makes no call after
    the crawler's, writes nothing to the database beyond seeding, returns
    normally, and leaves "ETL fatal error" with the key as the last line
    of the process log. *)
Theorem missing_status (e : Env) (w : World) (d : pydict) :
  reads_succeed e ->
  fetched e (db w) = Ok d ->
  d !! "status" = None ->
  raised e w = Some (KeyError "status")
  /\ result e w = Ok tt
  /\ new_calls e w = setup_calls ++ fetch_calls (db w)
  /\ db (run e w) = seeded (db w)
  /\ last (console (run e w)) = Some (fatal_line (KeyError "status")).
Proof.
  intros Hr Hd Hs.
  destruct (run_via_classify e w d Hr Hd)
    as (w2 & Hdb & Hcalls & Hrun & Hrc & Hcomp & _).
  rewrite (classify_no_status e _ d w2 Hs) in Hrun, Hrc, Hcomp.
  cbn [fst snd] in Hrun, Hrc, Hcomp.
  apply completion_raised in Hcomp.
  destruct (swallowed e w _ (reads_setup e w Hr) Hcomp eq_refl) as [Hres Hlast].
  rewrite Hcalls in Hrc. apply new_calls_app in Hrc.
  rewrite Hdb in Hrun. done.
Qed.

Lemma missing_status_witness :
  raised env_no_status empty_world = Some (KeyError "status")
  /\ result env_no_status empty_world = Ok tt
  /\ new_calls env_no_status empty_world
     = setup_calls ++ fetch_calls (db empty_world)
  /\ db (run env_no_status empty_world) = seeded (db empty_world)
  /\ last (console (run env_no_status empty_world))
     = Some (fatal_line (KeyError "status")).
Proof.
  exact (missing_status env_no_status empty_world {[ "content" := VStr page ]}
           (fun _ _ _ => eq_refl) eq_refl eq_refl).
Defined.

(** X6: a status other than "NO_CHANGE" and "FAILED" is taken for a
    change, whatever value it is: the parser is called with the [content]
    entry, and when it answers without an [error] entry and the two
    writes do not raise, the version is saved and SUCCESS is recorded. *)
Theorem unknown_status_is_change (e : Env) (w : World) (d m : pydict)
    (s c h : pyval) :
  let card := target_card (db w) in
  let saved := save_card_version_row card "2026-Q1" h m c (seeded (db w)) in
  reads_succeed e ->
  fetched e (db w) = Ok d ->
  d !! "status" = Some s ->
  py_eq_str s "NO_CHANGE" = false ->
  py_eq_str s "FAILED" = false ->
  d !! "content" = Some c ->
  d !! "hash" = Some h ->
  on_parse_markdown_to_json e c = Ok m ->
  m !! "error" = None ->
  fault e (Call_save_card_version card "2026-Q1" h m c) (seeded (db w))
  = None ->
  fault e (Call_log_crawl_result card "SUCCESS" VNone) saved = None ->
  List.filter is_parse_call (new_calls e w) = [Call_parse_markdown_to_json c]
  /\ new_versions e w = [mkCardVersion card "2026-Q1" h m c]
  /\ new_logs e w = [mkCrawlLog card "SUCCESS" VNone].
Proof.
  cbv zeta. intros Hr Hd Hs Hn Hf Hc Hh Hp He Hsave Hlog.
  destruct (run_via_classify e w d Hr Hd)
    as (w2 & Hdb & Hcalls & Hrun & Hrc & _ & _).
  destruct (classify_as_changed e (target_card (db w)) d s c h w2
              Hs Hn Hf Hc Hh) as [Heq Hch].
  rewrite Heq in Hrun, Hrc.
  pose proof (classify_commit e (target_card (db w)) _ c h m w2 Hch Hp He)
    as Hcm.
  cbv zeta in Hcm. rewrite Hdb, Hsave, Hlog in Hcm.
  destruct Hcm as (Hcl & _ & Hsnd).
  rewrite Hsnd, save_log_add_rows in Hrun.
  apply rows_of_run in Hrun as [-> ->].
  rewrite Hcl, Hcalls, <- !app_assoc in Hrc. apply new_calls_app in Hrc.
  by rewrite Hrc.
Qed.

Lemma unknown_status_is_change_witness :
  List.filter is_parse_call (new_calls env_odd_status empty_world)
  = [Call_parse_markdown_to_json (VStr page)]
  /\ new_versions env_odd_status empty_world
     = [mkCardVersion 1 "2026-Q1" (VStr (fingerprint page)) payload
                      (VStr page)]
  /\ new_logs env_odd_status empty_world = [mkCrawlLog 1 "SUCCESS" VNone].
Proof.
  exact (unknown_status_is_change env_odd_status empty_world odd_answer
           payload (VStr "UPDATED") (VStr page) (VStr (fingerprint page))
           (fun _ _ _ => eq_refl) eq_refl eq_refl eq_refl eq_refl eq_refl
           eq_refl eq_refl eq_refl eq_refl eq_refl).
Defined.

(** X7: when the crawler reports a change but its answer lacks [content]
    or [hash], lines 45-46 raise [KeyError] before the parser is called:
    the run calls neither the parser nor a write, writes nothing beyond
    seeding, and returns normally with the exception in the process
    log. *)
Theorem changed_without_content_or_hash (e : Env) (w : World) (d : pydict)
    (s : pyval) :
  reads_succeed e ->
  fetched e (db w) = Ok d ->
  d !! "status" = Some s ->
  py_eq_str s "NO_CHANGE" = false ->
  py_eq_str s "FAILED" = false ->
  d !! "content" = None \/ d !! "hash" = None ->
  exists k,
    (k = "content" \/ k = "hash") /\ d !! k = None
    /\ raised e w = Some (KeyError k)
    /\ result e w = Ok tt
    /\ new_calls e w = setup_calls ++ fetch_calls (db w)
    /\ db (run e w) = seeded (db w)
    /\ last (console (run e w)) = Some (fatal_line (KeyError k)).
Proof.
  intros Hr Hd Hs Hn Hf Hmiss.
  destruct (run_via_classify e w d Hr Hd)
    as (w2 & Hdb & Hcalls & Hrun & Hrc & Hcomp & _).
  destruct (classify_missing_key e (target_card (db w)) d s w2 Hs Hn Hf Hmiss)
    as (k & w' & Hk & Hnone & Heq & Hdb' & Hcalls').
  rewrite Heq in Hrun, Hrc, Hcomp. cbn [fst snd] in Hrun, Hrc, Hcomp.
  apply completion_raised in Hcomp.
  destruct (swallowed e w _ (reads_setup e w Hr) Hcomp eq_refl) as [Hres Hlast].
  rewrite Hcalls', Hcalls in Hrc. apply new_calls_app in Hrc.
  rewrite Hdb', Hdb in Hrun. exists k. done.
Qed.

Lemma changed_without_content_or_hash_witness :
  exists k,
    (k = "content" \/ k = "hash") /\ no_hash_answer !! k = None
    /\ raised env_no_hash empty_world = Some (KeyError k)
    /\ result env_no_hash empty_world = Ok tt
    /\ new_calls env_no_hash empty_world
       = setup_calls ++ fetch_calls (db empty_world)
    /\ db (run env_no_hash empty_world) = seeded (db empty_world)
    /\ last (console (run env_no_hash empty_world))
       = Some (fatal_line (KeyError k)).
Proof.
  exact (changed_without_content_or_hash env_no_hash empty_world
           no_hash_answer (VStr "CHANGED")
           (fun _ _ _ => eq_refl) eq_refl eq_refl eq_refl eq_refl
           (or_intror eq_refl)).
Defined.

(** X8: a FAILED answer without an [error] entry raises nothing:
    [crawl_result.get('error')] is [None], the only write asked of the
    database is the FAILED outcome with no detail, and when that write
    does not raise the audit table gains exactly that row. *)
Theorem failed_without_detail (e : Env) (w : World) (d : pydict) :
  reads_succeed e ->
  fetched e (db w) = Ok d ->
  d !! "status" = Some (VStr "FAILED") ->
  d !! "error" = None ->
  let record := Call_log_crawl_result (target_card (db w)) "FAILED" VNone in
  List.filter is_write (new_calls e w) = [record]
  /\ (fault e record (seeded (db w)) = None ->
      new_logs e w = [mkCrawlLog (target_card (db w)) "FAILED" VNone]
      /\ raised e w = None
      /\ result e w = Ok tt).
Proof.
  intros Hr Hd Hs HD. cbv zeta.
  destruct (log_ending e w d "FAILED" (dict_get d "error") [] Hr Hd
              (failed_ending e w d Hr Hd Hs) eq_refl)
    as (Hw & _ & _ & Hok & _).
  unfold dict_get in Hw, Hok. rewrite HD in Hw, Hok. cbn [default] in Hw, Hok.
  split; [done|]. intros Hf. destruct (Hok Hf) as (Hl & _ & Hres).
  split; [done|]. split; [|done].
  pose proof (new_logs_length e w) as Hlen. rewrite Hl in Hlen.
  by destruct (raised e w).
Qed.

Lemma failed_without_detail_witness :
  new_logs env_failed_silent empty_world = [mkCrawlLog 1 "FAILED" VNone]
  /\ raised env_failed_silent empty_world = None
  /\ result env_failed_silent empty_world = Ok tt.
Proof.
  destruct (failed_without_detail env_failed_silent empty_world
              {[ "status" := VStr "FAILED" ]}
              (fun _ _ _ => eq_refl) eq_refl eq_refl eq_refl) as [_ H].
  exact (H eq_refl).
Defined.

(** ** What a run leaves for the next one *)

Section Lineage.

Lemma target_card_ext st st' :
  banks st' = banks st -> cards st' = cards st ->
  target_card st' = target_card st.
Proof.
  intros Hb Hc. unfold target_card, seed, get_or_create_card_row,
    get_or_create_bank_row. cbn. by rewrite Hb, Hc.
Qed.

Lemma target_card_bank_seeded st : target_card (bank_seeded st) = target_card st.
Proof.
  unfold bank_seeded, target_card, seed, get_or_create_card_row,
    get_or_create_bank_row. cbn. by rewrite find_or_add_bank_again.
Qed.

Lemma target_card_seeded st : target_card (seeded st) = target_card st.
Proof.
  pose proof (seed_again st [] []) as H. rewrite add_rows_nil in H.
  unfold target_card at 1. by rewrite H.
Qed.

Lemma last_known_hash_ext st st' :
  target_card st' = target_card st ->
  card_versions st' = card_versions st ->
  last_known_hash st' = last_known_hash st.
Proof.
  intros Ht Hv. unfold last_known_hash, latest_version.
  change (card_versions (seeded st')) with (card_versions st').
  change (card_versions (seeded st)) with (card_versions st).
  by rewrite Ht, Hv.
Qed.

Lemma main_try_seeding e w :
  seeding_stage (db w) (db (snd (main_try e w))).
Proof.
  rewrite main_try_classify.
  unfold get_or_create_bank. rewrite bind_db_call.
  destruct (fault _ _ _); [exists (db w); by auto|].
  unfold get_or_create_card. rewrite bind_db_call. cbn [db calls console].
  destruct (fault _ _ _); [exists (bank_seeded (db w)); by auto|].
  rewrite bind_logger. cbn [db calls console].
  unfold get_latest_card_version. rewrite bind_db_call. cbn [db calls console].
  destruct (fault _ _ _); [exists (seeded (db w)); by auto|].
  cbn [fst snd]. rewrite bind_last_hash_of_row.
  unfold process_card_url. rewrite bind_ext_call.
  destruct (on_process_card_url _ _ _ _) as [d|ex] eqn:Hd;
    [|exists (seeded (db w)); by auto].
  match goal with |- context [classify e ?card d ?w2] =>
    destruct (classify_effect e card d w2) as (vs & ls & Ha & _)
  end.
  exists (seeded (db w)). rewrite Ha. by auto.
Qed.

Lemma run_target e w : target_card (db (run e w)) = target_card (db w).
Proof.
  assert (Hst : seeding_stage (db w) (db (run e w))).
  { unfold run, main, bind. pose proof (main_setup_db e w) as Hdb.
    destruct (main_setup e w) as [[[]|ex] w1]; cbn [fst snd] in *.
    2:{ exists (db w). rewrite Hdb. by auto. }
    pose proof (main_try_seeding e w1) as Ht. rewrite Hdb in Ht.
    unfold try_except_Exception.
    destruct (main_try e w1) as [[[]|ex] w2]; cbn [fst snd] in *; [done|].
    by destruct (exn_derives_Exception ex). }
  destruct Hst as (st0 & Hst0 & Hb & Hc).
  rewrite (target_card_ext _ _ Hb Hc).
  destruct Hst0 as [->|[->| ->]];
    auto using target_card_bank_seeded, target_card_seeded.
Qed.

Lemma new_versions_card e w v :
  new_versions e w = [v] -> cv_card v = target_card (db w).
Proof.
  intros Hv.
  destruct (run_effect e w) as [(ex & _ & Hu & _)|(d & vs & ls & _ & Hdb & Ht)].
  { unfold new_versions in Hv. rewrite Hu, drop_all in Hv. discriminate. }
  destruct (rows_of_run _ _ _ _ Hdb) as [Hvs _]. rewrite Hv in Hvs. subst vs.
  inversion Ht; subst; done.
Qed.

Lemma next_hash e w :
  last_known_hash (db (run e w))
  = match new_versions e w with
    | [] => last_known_hash (db w)
    | v :: _ => cv_hash v
    end.
Proof.
  destruct (run_rows e w) as (card & d & Hv & _ & Ht).
  destruct (new_versions e w) as [|v vs] eqn:Hnew.
  - apply last_known_hash_ext; [apply run_target|].
    by rewrite Hv, app_nil_r.
  - assert (vs = []) as -> by (inversion Ht; done).
    pose proof (new_versions_card e w v Hnew) as Hcard.
    unfold last_known_hash, latest_version.
    change (card_versions (seeded (db (run e w))))
      with (card_versions (db (run e w))).
    rewrite run_target, Hv, List.filter_app. cbn. unfold version_of at 2.
    by rewrite Hcard, Z.eqb_refl, last_snoc.
Qed.

Lemma fetch_calls_made e w :
  reads_succeed e ->
  exists rest, new_calls e w = setup_calls ++ fetch_calls (db w) ++ rest.
Proof.
  intros Hr.
  destruct (run_calls_shape e w) as [[Hp Hraised]|(d & tail & _ & Heq & _)];
    [|by eauto].
  destruct (fetched e (db w)) as [d|ex] eqn:Hd.
  - destruct (run_via_classify e w d Hr Hd)
      as (w2 & _ & Hcalls & _ & Hrc & _ & _).
    destruct (classify_calls e (target_card (db w)) d w2) as (tail & Hc & _).
    rewrite Hc, Hcalls, <- !app_assoc in Hrc. apply new_calls_app in Hrc.
    by eauto.
  - exists []. rewrite app_nil_r.
    unfold new_calls, run, main, bind. rewrite (main_setup_ok e w Hr).
    unfold try_except_Exception.
    rewrite main_try_classify.
    unfold get_or_create_bank. rewrite bind_db_call, Hr by done.
    unfold get_or_create_card. rewrite bind_db_call, Hr by done.
    cbn [fst snd db calls console].
    rewrite bind_logger. cbn [db calls console].
    unfold get_latest_card_version. rewrite bind_db_call, Hr by done.
    cbn [fst snd db calls console]. rewrite bind_last_hash_of_row.
    unfold process_card_url. rewrite bind_ext_call.
    unfold fetched, last_known_hash, target_card, seeded, seed in Hd.
    cbn zeta in Hd. rewrite Hd.
    destruct (exn_derives_Exception ex); cbn;
      rewrite <- !app_assoc, drop_app_length; reflexivity.
Qed.

End Lineage.

(** X9: the fingerprint a run hands to the crawler is the one saved by
    the latest run that saved a version.  After any run [e1], a next run
    whose reads succeed calls the crawler for the same card and URL, with
    the fingerprint [e1] saved if it saved a version, and otherwise with
    the fingerprint [e1] itself was started with. *)
Theorem next_run_fingerprint (e1 e2 : Env) (w : World) :
  reads_succeed e2 ->
  Call_process_card_url (target_card (db w)) target_url
    match new_versions e1 w with
    | [] => last_known_hash (db w)
    | v :: _ => cv_hash v
    end
  ∈ new_calls e2 (run e1 w).
Proof.
  intros Hr. destruct (fetch_calls_made e2 (run e1 w) Hr) as [rest ->].
  rewrite <- (next_hash e1 w), <- (run_target e1 w).
  apply elem_of_app. right. apply elem_of_app. left.
  unfold fetch_calls. do 3 apply list_elem_of_further. apply list_elem_of_here.
Qed.

Lemma next_run_fingerprint_witness :
  Call_process_card_url 1 target_url (VStr (fingerprint page))
  ∈ new_calls env_parse_failed (run env_steady empty_world).
Proof.
  exact (next_run_fingerprint env_steady env_parse_failed empty_world
           (fun _ _ _ => eq_refl)).
Defined.

(** ** The rows of every run *)

Section Rows.

Lemma new_versions_short e w : (length (new_versions e w) <= 1)%nat.
Proof.
  destruct (run_rows e w) as (card & d & _ & _ & Ht).
  destruct Ht; cbn; lia.
Qed.

Lemma runs_snoc es e w : runs (es ++ [e]) w = run e (runs es w).
Proof. unfold runs. by rewrite fold_left_app. Qed.

End Rows.

(** X10: no run saves more than one version.  After any number of runs,
    whatever the collaborators answered or raised, the version table has
    gained at most one row per run. *)
Theorem versions_bounded_by_runs (es : list Env) (w : World) :
  (length (card_versions (db (runs es w)))
   <= length (card_versions (db w)) + length es)%nat.
Proof.
  induction es as [|e es IH] using rev_ind; [cbn; lia|].
  rewrite runs_snoc.
  destruct (run_rows e (runs es w)) as (card & d & Hv' & _ & _).
  rewrite Hv', !length_app.
  pose proof (new_versions_short e (runs es w)). cbn. lia.
Qed.

(** X11: every outcome row a run writes is for the card of the run and
    says what happened in it.  A NO_CHANGE or SUCCESS row carries no
    detail; a FAILED row carries [crawl_result.get('error')]; an
    AI_FAILED row carries the [error] entry of the parser's answer to the
    fetched content.  Only a SUCCESS row comes with a version. *)
Theorem outcome_row_provenance (e : Env) (w : World) (l : CrawlLog) :
  l ∈ new_logs e w ->
  new_logs e w = [l]
  /\ cl_card l = target_card (db w)
  /\ exists d,
      fetched e (db w) = Ok d
      /\ ((cl_status l = "NO_CHANGE" /\ cl_error l = VNone
           /\ new_versions e w = [])
          \/ (cl_status l = "FAILED" /\ cl_error l = dict_get d "error"
              /\ new_versions e w = [])
          \/ (cl_status l = "AI_FAILED" /\ new_versions e w = []
              /\ exists c m,
                  d !! "content" = Some c
                  /\ on_parse_markdown_to_json e c = Ok m
                  /\ m !! "error" = Some (cl_error l))
          \/ (cl_status l = "SUCCESS" /\ cl_error l = VNone
              /\ exists v, new_versions e w = [v])).
Proof.
  intros Hin.
  destruct (run_effect e w) as [(ex & _ & _ & Hu)|(d & vs & ls & Hd & Hdb & Ht)].
  { unfold new_logs in Hin. rewrite Hu, drop_all in Hin.
    by apply elem_of_nil in Hin. }
  destruct (rows_of_run _ _ _ _ Hdb) as [Hvs Hls]. rewrite Hvs, Hls in *.
  destruct Ht; try (by apply elem_of_nil in Hin);
    apply list_elem_of_singleton in Hin as ->; cbn;
    (split; [done|]); (split; [done|]); exists d; (split; [done|]).
  - by left.
  - right. by left.
  - right. right. left. by eauto 10.
  - right. right. right. by eauto.
Qed.

Lemma outcome_row_provenance_witness :
  new_logs env_error_field empty_world
  = [mkCrawlLog 1 "AI_FAILED" (VStr "late payment fee")]
  /\ cl_card (mkCrawlLog 1 "AI_FAILED" (VStr "late payment fee"))
     = target_card (db empty_world).
Proof.
  destruct (outcome_row_provenance env_error_field empty_world
              (mkCrawlLog 1 "AI_FAILED" (VStr "late payment fee")))
    as (H1 & H2 & _).
  - vm_compute. apply list_elem_of_here.
  - exact (conj H1 H2).
Defined.

(** ** Collaborators that raise *)

Section Raising.

Lemma run_crawler_raises e w ex :
  reads_succeed e ->
  fetched e (db w) = Raise ex ->
  new_calls e w = setup_calls ++ fetch_calls (db w)
  /\ db (run e w) = seeded (db w)
  /\ raised e w = Some ex.
Proof.
  intros Hr Hd.
  unfold new_calls, raised, run, main, bind. rewrite (main_setup_ok e w Hr).
  unfold try_except_Exception.
  rewrite main_try_classify.
  unfold get_or_create_bank. rewrite bind_db_call, Hr by done.
  unfold get_or_create_card. rewrite bind_db_call, Hr by done.
  cbn [fst snd db calls console].
  rewrite bind_logger. cbn [db calls console].
  unfold get_latest_card_version. rewrite bind_db_call, Hr by done.
  cbn [fst snd db calls console]. rewrite bind_last_hash_of_row.
  unfold process_card_url. rewrite bind_ext_call.
  unfold fetched, last_known_hash, target_card, seeded, seed in Hd.
  cbn zeta in Hd. rewrite Hd.
  destruct (exn_derives_Exception ex); cbn;
    rewrite <- !app_assoc, drop_app_length; done.
Qed.

Lemma classify_parser_raises e card d s c h ex w :
  d !! "status" = Some s ->
  py_eq_str s "NO_CHANGE" = false ->
  py_eq_str s "FAILED" = false ->
  d !! "content" = Some c ->
  d !! "hash" = Some h ->
  on_parse_markdown_to_json e c = Raise ex ->
  exists w',
    classify e card d w = (Raise ex, w')
    /\ db w' = db w
    /\ calls w' = calls w ++ [Call_parse_markdown_to_json c].
Proof.
  intros Hs Hn Hf Hc Hh Hp. rewrite (classify_else e card d s w Hs Hn Hf).
  rewrite bind_subscript, Hc, bind_subscript, Hh.
  unfold parse_markdown_to_json. rewrite bind_ext_call, Hp.
  eexists. split; [reflexivity|]. done.
Qed.

End Raising.

(** X12: when the crawler raises instead of answering, the run stops
    there: the parser is not called, no write is asked of the database,
    which is left as seeding left it; the exception is swallowed and
    reported in the process log if it derives from [Exception], and
    reaches the caller otherwise. *)
Theorem crawler_raises (e : Env) (w : World) (ex : pyexn) :
  reads_succeed e ->
  fetched e (db w) = Raise ex ->
  new_calls e w = setup_calls ++ fetch_calls (db w)
  /\ db (run e w) = seeded (db w)
  /\ raised e w = Some ex
  /\ if exn_derives_Exception ex
     then result e w = Ok tt
          /\ last (console (run e w)) = Some (fatal_line ex)
     else result e w = Raise ex.
Proof.
  intros Hr Hd.
  destruct (run_crawler_raises e w ex Hr Hd) as (Hc & Hdb & Hex).
  split; [done|]. split; [done|]. split; [done|].
  by apply handler_cases; [apply reads_setup|].
Qed.

Lemma crawler_raises_witness :
  new_calls env_crawler_raises empty_world
  = setup_calls ++ fetch_calls (db empty_world)
  /\ db (run env_crawler_raises empty_world) = seeded (db empty_world)
  /\ raised env_crawler_raises empty_world
     = Some (PyExn true "TimeoutError" "page load timed out")
  /\ result env_crawler_raises empty_world = Ok tt
  /\ last (console (run env_crawler_raises empty_world))
     = Some (fatal_line (PyExn true "TimeoutError" "page load timed out")).
Proof.
  exact (crawler_raises env_crawler_raises empty_world
           (PyExn true "TimeoutError" "page load timed out")
           (fun _ _ _ => eq_refl) eq_refl).
Defined.

(** X13: when the parser raises instead of answering, the fetched content
    is dropped: after the parser's call no write is asked of the
    database, no version and no outcome is written, and the exception is
    swallowed and reported in the process log if it derives from
    [Exception], and reaches the caller otherwise. *)
Theorem parser_raises (e : Env) (w : World) (d : pydict) (s c h : pyval)
    (ex : pyexn) :
  reads_succeed e ->
  fetched e (db w) = Ok d ->
  d !! "status" = Some s ->
  py_eq_str s "NO_CHANGE" = false ->
  py_eq_str s "FAILED" = false ->
  d !! "content" = Some c ->
  d !! "hash" = Some h ->
  on_parse_markdown_to_json e c = Raise ex ->
  new_calls e w
  = setup_calls ++ fetch_calls (db w) ++ [Call_parse_markdown_to_json c]
  /\ new_versions e w = [] /\ new_logs e w = []
  /\ db (run e w) = seeded (db w)
  /\ raised e w = Some ex
  /\ if exn_derives_Exception ex
     then result e w = Ok tt
          /\ last (console (run e w)) = Some (fatal_line ex)
     else result e w = Raise ex.
Proof.
  intros Hr Hd Hs Hn Hf Hc Hh Hp.
  destruct (run_via_classify e w d Hr Hd)
    as (w2 & Hdb & Hcalls & Hrun & Hrc & Hcomp & _).
  destruct (classify_parser_raises e (target_card (db w)) d s c h ex w2
              Hs Hn Hf Hc Hh Hp) as (w' & Heq & Hdb' & Hcalls').
  rewrite Heq in Hrun, Hrc, Hcomp. cbn [fst snd] in Hrun, Hrc, Hcomp.
  apply completion_raised in Hcomp.
  rewrite Hcalls', Hcalls, <- !app_assoc in Hrc. apply new_calls_app in Hrc.
  rewrite Hdb', Hdb in Hrun.
  pose proof Hrun as Hrows. rewrite <- (add_rows_nil (seeded (db w))) in Hrows.
  apply rows_of_run in Hrows as [Hv Hl].
  repeat (split; [done|]).
  by apply handler_cases; [apply reads_setup|].
Qed.

Lemma parser_raises_witness :
  new_calls env_parser_raises empty_world
  = setup_calls ++ fetch_calls (db empty_world)
      ++ [Call_parse_markdown_to_json (VStr page)]
  /\ new_versions env_parser_raises empty_world = []
  /\ new_logs env_parser_raises empty_world = []
  /\ db (run env_parser_raises empty_world) = seeded (db empty_world)
  /\ raised env_parser_raises empty_world
     = Some (PyExn true "ValueError" "invalid JSON")
  /\ result env_parser_raises empty_world = Ok tt
  /\ last (console (run env_parser_raises empty_world))
     = Some (fatal_line (PyExn true "ValueError" "invalid JSON")).
Proof.
  exact (parser_raises env_parser_raises empty_world
           (changed_answer page (fingerprint page)) (VStr "CHANGED")
           (VStr page) (VStr (fingerprint page))
           (PyExn true "ValueError" "invalid JSON")
           (fun _ _ _ => eq_refl) eq_refl eq_refl eq_refl eq_refl eq_refl
           eq_refl eq_refl).
Defined.
